(** * Playground search proxy: the request handler of [index.ts]

    A shallow embedding of the [handler] function of [index.ts] (and of its
    cached compiled copy [index.ts.js], which differs only in the build
    identifier of the upstream address), together with the part of the
    ECMAScript and Fetch semantics the handler exercises: strings as sequences
    of UTF-16 code units, property reads on parsed JSON values, truthiness,
    the relational comparison [x > 0], [encodeURIComponent], [JSON.stringify],
    [try]/[catch], the outbound [fetch] and [console.error]. *)

From Stdlib Require Import List NArith ZArith Bool Ascii String DecimalString Lia.
Import ListNotations.

(** ** Strings *)

(** An ECMAScript string is a finite sequence of 16-bit code units. *)
Definition jsstring := list N.

(** The string a source literal denotes (the literals of the handler are
    ASCII). *)
Definition js (s : string) : jsstring :=
  map N_of_ascii (list_ascii_of_string s).

(** The code unit of the double quote, and literals in which a backquote
    stands for it. *)
Definition dquote : N := 34%N.

Definition jsq (s : string) : jsstring :=
  map (fun c => if N.eqb c 96 then dquote else c) (js s).

Fixpoint jsstring_eqb (s t : jsstring) : bool :=
  match s, t with
  | [], [] => true
  | c :: s', d :: t' => N.eqb c d && jsstring_eqb s' t'
  | _, _ => false
  end.

Definition isLeadingSurrogate (c : N) : bool :=
  (N.leb 55296 c && N.leb c 56319)%N.      (* 0xD800 .. 0xDBFF *)

Definition isTrailingSurrogate (c : N) : bool :=
  (N.leb 56320 c && N.leb c 57343)%N.      (* 0xDC00 .. 0xDFFF *)

(** [String.prototype.isWellFormed]: no lone surrogate.  The strings the URL
    parser hands out (USVString) are of this kind. *)
Fixpoint isWellFormed (s : jsstring) : bool :=
  match s with
  | [] => true
  | c :: rest =>
      if isLeadingSurrogate c then
        match rest with
        | d :: rest' => isTrailingSurrogate d && isWellFormed rest'
        | [] => false
        end
      else if isTrailingSurrogate c then false
      else isWellFormed rest
  end.

Definition hexDigit (upper : bool) (d : N) : N :=
  if N.ltb d 10 then (48 + d)%N
  else if upper then (55 + d)%N else (87 + d)%N.

(** Two uppercase hexadecimal digits of an octet. *)
Definition hex2 (o : N) : jsstring :=
  [hexDigit true (N.shiftr o 4); hexDigit true (N.land o 15)].

(** Four lowercase hexadecimal digits of a code unit. *)
Definition hex4 (c : N) : jsstring :=
  [hexDigit false (N.land (N.shiftr c 12) 15);
   hexDigit false (N.land (N.shiftr c 8) 15);
   hexDigit false (N.land (N.shiftr c 4) 15);
   hexDigit false (N.land c 15)].

(** ** Completions *)

Inductive error : Type :=
| TypeError
| URIError
| SyntaxError
| NetworkError (detail : jsstring).

Inductive completion (A : Type) : Type :=
| Normal (a : A)
| Throw (e : error).

Arguments Normal {A} a.
Arguments Throw {A} e.

Definition cbind {A B} (c : completion A) (k : A -> completion B)
  : completion B :=
  match c with
  | Normal a => k a
  | Throw e => Throw e
  end.

Declare Scope completion_scope.
Delimit Scope completion_scope with cpl.
Notation "x <- c ;; k" := (cbind c (fun x => k))
  (at level 61, c at next level, right associativity) : completion_scope.

(** ** [encodeURIComponent] *)

Definition uriUnescaped (c : N) : bool :=
  ((N.leb 65 c && N.leb c 90)          (* A-Z *)
   || (N.leb 97 c && N.leb c 122)      (* a-z *)
   || (N.leb 48 c && N.leb c 57)       (* 0-9 *)
   || existsb (N.eqb c) (js "_-.!~*'()"))%N.

Definition UTF16SurrogatePairToCodePoint (lead trail : N) : N :=
  ((lead - 55296) * 1024 + (trail - 56320) + 65536)%N.

(** The UTF-8 transformation of a code point. *)
Definition utf8 (cp : N) : list N :=
  if N.ltb cp 128 then [cp]
  else if N.ltb cp 2048 then
    [N.lor 192 (N.shiftr cp 6); N.lor 128 (N.land cp 63)]
  else if N.ltb cp 65536 then
    [N.lor 224 (N.shiftr cp 12);
     N.lor 128 (N.land (N.shiftr cp 6) 63);
     N.lor 128 (N.land cp 63)]
  else
    [N.lor 240 (N.shiftr cp 18);
     N.lor 128 (N.land (N.shiftr cp 12) 63);
     N.lor 128 (N.land (N.shiftr cp 6) 63);
     N.lor 128 (N.land cp 63)].

(** The characters that delimit the parts of an address and of its query
    string: space, and the marks [& # ? = + /]. *)
Definition uriDelimiter (c : N) : bool :=
  existsb (N.eqb c) (js " &#?=+/").

Definition percentEncode (cp : N) : jsstring :=
  flat_map (fun o => 37%N :: hex2 o) (utf8 cp).

(** The abstract operation Encode with the unescaped set of
    [encodeURIComponent]; a lone surrogate raises a URIError. *)
Fixpoint encodeURIComponent (s : jsstring) : completion jsstring :=
  match s with
  | [] => Normal []
  | c :: rest =>
      if uriUnescaped c then
        (r <- encodeURIComponent rest ;; Normal (c :: r))%cpl
      else if isLeadingSurrogate c then
        match rest with
        | d :: rest' =>
            if isTrailingSurrogate d then
              (r <- encodeURIComponent rest' ;; Normal (percentEncode (UTF16SurrogatePairToCodePoint c d) ++ r))%cpl
            else Throw URIError
        | [] => Throw URIError
        end
      else if isTrailingSurrogate c then Throw URIError
      else
        (r <- encodeURIComponent rest ;; Normal (percentEncode c ++ r))%cpl
  end.

(** ** [QuoteJSONString] *)

Definition jsonEscape (c : N) : jsstring :=
  if N.eqb c 8 then js "\b"
  else if N.eqb c 9 then js "\t"
  else if N.eqb c 10 then js "\n"
  else if N.eqb c 12 then js "\f"
  else if N.eqb c 13 then js "\r"
  else if N.eqb c 34 then [92; 34]%N
  else if N.eqb c 92 then [92; 92]%N
  else if N.ltb c 32 then js "\u" ++ hex4 c
  else [c].

Fixpoint quoteChars (s : jsstring) : jsstring :=
  match s with
  | [] => []
  | c :: rest =>
      if isLeadingSurrogate c then
        match rest with
        | d :: rest' =>
            if isTrailingSurrogate d then c :: d :: quoteChars rest'
            else js "\u" ++ hex4 c ++ quoteChars rest
        | [] => js "\u" ++ hex4 c
        end
      else if isTrailingSurrogate c then js "\u" ++ hex4 c ++ quoteChars rest
      else jsonEscape c ++ quoteChars rest
  end.

Definition QuoteJSONString (s : jsstring) : jsstring :=
  dquote :: quoteChars s ++ [dquote].


(** ** Numbers *)

(** The Number type of the engine (IEEE 754 binary64) with the operations the
    handler reaches: the Number of a length, NaN, [Number::lessThan], the
    zero-or-NaN test of [ToBoolean], finiteness, [Number::toString] and
    [StringToNumber].  The one law used is that the Number of a length is
    above zero exactly when the length is. *)
Class Number : Type := {
  number : Type;
  Number_of_nat : nat -> number;
  Number_NaN : number;
  Number_lessThan : number -> number -> option bool;
  Number_isZeroOrNaN : number -> bool;
  Number_isFinite : number -> bool;
  Number_toString : number -> jsstring;
  StringToNumber : jsstring -> number;
  Number_lessThan_zero_of_nat :
    forall n, Number_lessThan (Number_of_nat 0) (Number_of_nat n)
              = Some (Nat.ltb 0 n)
}.

(** ** Values *)

Section Values.

Context {Num_ops : Number}.

(** The values a parsed JSON text is made of, and [undefined], which property
    reads add.  [Obj] lists the own properties in enumeration order, each key
    once. *)
#[warnings="-register-all"] Inductive value : Type :=
| Undefined
| Null
| Bool (b : bool)
| Num (n : number)
| Str (s : jsstring)
| Arr (elements : list value)
| Obj (properties : list (jsstring * value)).

Fixpoint lookup (k : jsstring) (ps : list (jsstring * value)) : option value :=
  match ps with
  | [] => None
  | (k', v) :: rest => if jsstring_eqb k' k then Some v else lookup k rest
  end.

Definition hasOwnProperty (ps : list (jsstring * value)) (k : jsstring) : bool :=
  match lookup k ps with Some _ => true | None => false end.

Definition isDigit (c : N) : bool := (N.leb 48 c && N.leb c 57)%N.

(** The index a property key denotes, when it is the canonical decimal
    numeral of one. *)
Definition arrayIndex (k : jsstring) : option nat :=
  match k with
  | [] => None
  | c :: rest =>
      if isDigit c && forallb isDigit rest
         && (negb (N.eqb c 48) || match rest with [] => true | _ => false end)
      then Some (N.to_nat (fold_left (fun acc d => (10 * acc + (d - 48))%N) k 0%N))
      else None
  end.

Definition isObjectCoercible (v : value) : bool :=
  match v with
  | Undefined | Null => false
  | _ => true
  end.

(** The value of property [k] of [v], [undefined] when there is none.  The
    keys the handler reads name no inherited property, so only own properties
    are looked at. *)
Definition property (v : value) (k : jsstring) : value :=
  match v with
  | Undefined | Null | Bool _ | Num _ => Undefined
  | Str s =>
      if jsstring_eqb k (js "length") then Num (Number_of_nat (List.length s))
      else match arrayIndex k with
           | Some i => match nth_error s i with
                       | Some c => Str [c]
                       | None => Undefined
                       end
           | None => Undefined
           end
  | Arr l =>
      if jsstring_eqb k (js "length") then Num (Number_of_nat (List.length l))
      else match arrayIndex k with
           | Some i => match nth_error l i with
                       | Some x => x
                       | None => Undefined
                       end
           | None => Undefined
           end
  | Obj ps =>
      match lookup k ps with
      | Some x => x
      | None => Undefined
      end
  end.

(** A property read [v.k]: a TypeError on [undefined] and [null]. *)
Definition Get (v : value) (k : jsstring) : completion value :=
  if isObjectCoercible v then Normal (property v k) else Throw TypeError.

Definition ToBoolean (v : value) : bool :=
  match v with
  | Undefined | Null => false
  | Bool b => b
  | Num n => negb (Number_isZeroOrNaN n)
  | Str s => match s with [] => false | _ => true end
  | Arr _ | Obj _ => true
  end.

(** [a || b] *)
Definition logicalOr (a b : value) : value :=
  if ToBoolean a then a else b.

(** [ToString].  An array is joined with commas; a parsed object takes
    [Object.prototype.toString] unless an own property of that name, which
    is no function, hides it, and then there is no primitive to convert to. *)
Fixpoint ToString (v : value) : completion jsstring :=
  match v with
  | Undefined => Normal (js "undefined")
  | Null => Normal (js "null")
  | Bool true => Normal (js "true")
  | Bool false => Normal (js "false")
  | Num n => Normal (Number_toString n)
  | Str s => Normal s
  | Arr l =>
      (fix join (l : list value) : completion jsstring :=
         match l with
         | [] => Normal []
         | x :: rest =>
             (e <- match x with
                   | Undefined | Null => Normal []
                   | _ => ToString x
                   end ;;
              match rest with
              | [] => Normal e
              | _ => r <- join rest ;; Normal (e ++ js "," ++ r)
              end)%cpl
         end) l
  | Obj ps =>
      if hasOwnProperty ps (js "toString") then Throw TypeError
      else Normal (js "[object Object]")
  end.

(** [ToPrimitive] with hint number. *)
Definition ToPrimitive (v : value) : completion value :=
  match v with
  | Arr _ | Obj _ => (s <- ToString v ;; Normal (Str s))%cpl
  | _ => Normal v
  end.

(** [ToNumber] of a primitive. *)
Definition ToNumber (p : value) : number :=
  match p with
  | Null => Number_of_nat 0
  | Bool true => Number_of_nat 1
  | Bool false => Number_of_nat 0
  | Num n => n
  | Str s => StringToNumber s
  | _ => Number_NaN
  end.

(** [v > 0] *)
Definition greaterThanZero (v : value) : completion bool :=
  (p <- ToPrimitive v ;;
   Normal match Number_lessThan (Number_of_nat 0) (ToNumber p) with
          | Some b => b
          | None => false
          end)%cpl.

(** ** [JSON.stringify] *)

Fixpoint joinComma (l : list jsstring) : jsstring :=
  match l with
  | [] => []
  | [s] => s
  | s :: rest => s ++ js "," ++ joinComma rest
  end.

(** [SerializeJSONProperty]: [None] stands for the [undefined] result.  An
    [undefined] array element is written as null, an [undefined] property is
    left out. *)
Fixpoint SerializeJSONProperty (v : value) : option jsstring :=
  match v with
  | Undefined => None
  | Null => Some (js "null")
  | Bool true => Some (js "true")
  | Bool false => Some (js "false")
  | Num n => Some (if Number_isFinite n then Number_toString n else js "null")
  | Str s => Some (QuoteJSONString s)
  | Arr l =>
      Some (js "[" ++
            joinComma
              ((fix elements (l : list value) : list jsstring :=
                  match l with
                  | [] => []
                  | x :: rest =>
                      match SerializeJSONProperty x with
                      | Some s => s
                      | None => js "null"
                      end :: elements rest
                  end) l)
            ++ js "]")
  | Obj ps =>
      Some (js "{" ++
            joinComma
              ((fix members (ps : list (jsstring * value)) : list jsstring :=
                  match ps with
                  | [] => []
                  | (k, x) :: rest =>
                      match SerializeJSONProperty x with
                      | Some s => (QuoteJSONString k ++ js ":" ++ s) :: members rest
                      | None => members rest
                      end
                  end) ps)
            ++ js "}")
  end.

Definition JSON_stringify (v : value) : option jsstring :=
  SerializeJSONProperty v.

End Values.

(** ** The runtime: requests, responses, the network and the console *)

(** A parsed address, as [new URL(request.url)] gives it: the path and the
    name-value pairs of the query string, percent-decoded. *)
Record URL : Type := {
  pathname : jsstring;
  searchParams : list (jsstring * jsstring)
}.

(** [url.searchParams.get(name)]: the first value of that name, or [null]
    ([None]). *)
Definition searchParams_get (u : URL) (name : jsstring) : option jsstring :=
  match find (fun p => jsstring_eqb (fst p) name) (searchParams u) with
  | Some p => Some (snd p)
  | None => None
  end.

Record Request : Type := {
  method : jsstring;
  url : URL
}.

(** [new Response(body, { status, headers })]; [headers] are the ones the
    caller passes. *)
Record Response : Type := {
  body : option jsstring;
  status : N;
  headers : list (jsstring * jsstring)
}.

(** The content type a response goes out with: the header the caller set,
    or else the type of a string body. *)
Definition contentType (r : Response) : jsstring :=
  match find (fun h => jsstring_eqb (fst h) (js "Content-Type")) (headers r) with
  | Some h => snd h
  | None => js "text/plain;charset=UTF-8"
  end.

Section Runtime.

Context {Num_ops : Number}.

(** What [fetch] settles to: a rejection, or a response whose [json()]
    settles to a parsed value or rejects. *)
Record UpstreamResponse : Type := {
  json_result : completion value
}.

Inductive fetched : Type :=
| Rejects (e : error)
| Resolves (r : UpstreamResponse).

(** The world around the handler: what the network answers for an address,
    the outbound calls made so far and the lines written to the error
    console. *)
Record world : Type := {
  network : jsstring -> fetched;
  outbound : list jsstring;
  console : list (jsstring * error)
}.

(** Computations that may throw and that act on the world. *)
Definition Eff (A : Type) : Type := world -> completion A * world.

Definition ret {A} (a : A) : Eff A := fun w => (Normal a, w).

Definition bind {A B} (m : Eff A) (k : A -> Eff B) : Eff B :=
  fun w =>
    match m w with
    | (Normal a, w') => k a w'
    | (Throw e, w') => (Throw e, w')
    end.

Definition lift {A} (c : completion A) : Eff A := fun w => (c, w).

(** [try { body } catch (error) { handle error }] *)
Definition try_catch {A} (body : Eff A) (handle : error -> Eff A) : Eff A :=
  fun w =>
    match body w with
    | (Normal a, w') => (Normal a, w')
    | (Throw e, w') => handle e w'
    end.

(** The world after one more outbound call, and after one more line on the
    error console. *)
Definition called (w : world) (address : jsstring) : world :=
  {| network := network w;
     outbound := outbound w ++ [address];
     console := console w |}.

Definition logged (w : world) (message : jsstring) (e : error) : world :=
  {| network := network w;
     outbound := outbound w;
     console := console w ++ [(message, e)] |}.

Definition fetch (address : jsstring) : Eff UpstreamResponse :=
  fun w =>
    match network w address with
    | Rejects e => (Throw e, called w address)
    | Resolves r => (Normal r, called w address)
    end.

(** [response.json()] *)
Definition json (r : UpstreamResponse) : Eff value := lift (json_result r).

Definition console_error (message : jsstring) (e : error) : Eff unit :=
  fun w => (Normal tt, logged w message e).

End Runtime.

Declare Scope eff_scope.
Delimit Scope eff_scope with eff.
Notation "x <- c ;; k" := (bind c (fun x => k))
  (at level 61, c at next level, right associativity) : eff_scope.
Notation "c ;;; k" := (bind c (fun _ => k))
  (at level 61, right associativity) : eff_scope.

(** ** The handler *)

Section Handler.

Context {Num_ops : Number}.

(** The address of the upstream search, up to the query: the one of
    [index.ts] and the one of the cached compiled copy. *)
Definition searchEndpoint : jsstring :=
  js "https://playground.com/_next/data/DKheFsybTy-HQ-Exsbzy9/search.json?q=".

Definition searchEndpoint_compiled : jsstring :=
  js "https://playground.com/_next/data/ba0kOy0FZsenBfbBIZHrR/search.json?q=".

Definition missingQueryMessage : jsstring :=
  js "Please provide a search query.".

Definition noResultsMessage (query : jsstring) : jsstring :=
  js "No results found for " ++ [dquote] ++ query ++ [dquote] ++ js ".".

Definition faultMessage : jsstring :=
  js "Sorry, an error occurred while fetching the search results.".

Definition errorBody (message : jsstring) : option jsstring :=
  JSON_stringify (Obj [(js "error", Str message)]).

(** The [try] block from the navigation of the parsed reply on: it touches
    nothing but the values at hand. *)
Definition shapeResults (query : jsstring) (responseData : value)
  : completion Response :=
  (pageProps <- Get responseData (js "pageProps") ;;
   data <- Get pageProps (js "data") ;;
   nonEmpty <- (if ToBoolean data
                then len <- Get data (js "length") ;; greaterThanZero len
                else Normal false) ;;
   if nonEmpty : bool then
     firstResult <- Get data (js "0") ;;
     title <- Get firstResult (js "title") ;;
     prompt <- Get firstResult (js "prompt") ;;
     user <- Get firstResult (js "user") ;;
     displayName <- Get user (js "displayName") ;;
     imageUrl <- Get firstResult (js "url") ;;
     let result := Obj [(js "title", logicalOr title (Str (js "N/A")));
                        (js "prompt", prompt);
                        (js "user", displayName);
                        (js "imageUrl", imageUrl)] in
     Normal {| body := JSON_stringify result;
               status := 200;
               headers := [(js "Content-Type", js "application/json")] |}
   else
     Normal {| body := errorBody (noResultsMessage query);
               status := 404;
               headers := [] |})%cpl.

(** The body of the [try] block. *)
Definition searchAndShape (searchUrl query : jsstring) : Eff Response :=
  (response <- fetch searchUrl ;;
   responseData <- json response ;;
   lift (shapeResults query responseData))%eff.

(** The address of the outbound call: the endpoint followed by the encoded
    query. *)
Definition searchUrlFor (endpoint query : jsstring) : completion jsstring :=
  (encoded <- encodeURIComponent query ;; Normal (endpoint ++ encoded))%cpl.

(** The [catch] clause. *)
Definition searchFailed (e : error) : Eff Response :=
  (console_error (js "Error fetching search results:") e ;;;
   ret {| body := errorBody faultMessage; status := 500; headers := [] |})%eff.

Definition handler_at (endpoint : jsstring) (request : Request) : Eff Response :=
  let url := url request in
  if jsstring_eqb (pathname url) (js "/search") then
    match searchParams_get url (js "q") with
    | Some ((_ :: _) as query) =>
        (searchUrl <- lift (searchUrlFor endpoint query) ;;
         try_catch (searchAndShape searchUrl query) searchFailed)%eff
    | _ =>
        ret {| body := errorBody missingQueryMessage;
               status := 400;
               headers := [] |}
    end
  else
    ret {| body := Some (js "Not Found"); status := 404; headers := [] |}.

(** [handler] of [index.ts], and of the compiled copy. *)
Definition handler : Request -> Eff Response := handler_at searchEndpoint.

Definition handler_compiled : Request -> Eff Response :=
  handler_at searchEndpoint_compiled.

End Handler.

(** ** Running the handler on examples *)

(** The integers among the Numbers, and NaN: a model of [Number] on which the
    examples below are evaluated.  Texts other than decimal integer numerals
    convert to NaN here. *)
Inductive intNumber : Type :=
| IntNaN
| Int (z : Z).

Definition intOfString (s : jsstring) : intNumber :=
  let digits (ds : jsstring) :=
    fold_left (fun acc d => (10 * acc + Z.of_N (d - 48))%Z) ds 0%Z in
  match s with
  | [] => Int 0
  | c :: rest =>
      if N.eqb c 45 && negb (jsstring_eqb rest []) && forallb isDigit rest
      then Int (- digits rest)
      else if forallb isDigit s then Int (digits s)
      else IntNaN
  end.

Definition intToString (x : intNumber) : jsstring :=
  match x with
  | IntNaN => js "NaN"
  | Int z => js (NilZero.string_of_int (Z.to_int z))
  end.

#[refine] Instance intNumbers : Number := {|
  number := intNumber;
  Number_of_nat := fun n => Int (Z.of_nat n);
  Number_NaN := IntNaN;
  Number_lessThan := fun x y =>
    match x, y with
    | Int a, Int b => Some (Z.ltb a b)
    | _, _ => None
    end;
  Number_isZeroOrNaN := fun x =>
    match x with
    | IntNaN => true
    | Int z => Z.eqb z 0
    end;
  Number_isFinite := fun x =>
    match x with
    | IntNaN => false
    | Int _ => true
    end;
  Number_toString := intToString;
  StringToNumber := intOfString
|}.
Proof.
  intros [|n]; reflexivity.
Defined.

(** A world with a quiet console whose network answers every address the
    same way. *)
Definition worldOf (answer : fetched) : world :=
  {| network := fun _ => answer; outbound := []; console := [] |}.

Definition answering (v : value) : world :=
  worldOf (Resolves {| json_result := Normal v |}).

Definition param (name val : string) : jsstring * jsstring :=
  (js name, js val).

Definition get (path : string) (params : list (jsstring * jsstring)) : Request :=
  {| method := js "GET";
     url := {| pathname := js path; searchParams := params |} |}.

Definition pageOf (data : value) : value :=
  Obj [(js "pageProps", Obj [(js "data", data)])].

(** The status and the body of the answer to a request, [None] when the
    handler throws. *)
Definition answerOf (request : Request) (w : world) : option (N * option jsstring) :=
  match fst (handler request w) with
  | Normal resp => Some (status resp, body resp)
  | Throw _ => None
  end.

Definition sampleResult : value :=
  Obj [(js "title", Str (js "T"));
       (js "prompt", Str (js "P"));
       (js "user", Obj [(js "displayName", Str (js "U"))]);
       (js "url", Str (js "http://x"))].

(** ** Vocabulary of the properties *)

Section Vocabulary.

Context {Num_ops : Number}.

(** A request for [/search] that carries the non-empty query [q].  The query
    comes out of the URL parser, so it has no lone surrogate. *)
Definition searchRequest (request : Request) (q : jsstring) : Prop :=
  pathname (url request) = js "/search"
  /\ searchParams_get (url request) (js "q") = Some q
  /\ q <> []
  /\ isWellFormed q = true.

(** The query of a request, empty when there is none. *)
Definition queryOf (request : Request) : jsstring :=
  match searchParams_get (url request) (js "q") with
  | Some q => q
  | None => []
  end.

(** The network answers [address] with a reply whose body parses to
    [responseData]. *)
Definition upstreamGives (w : world) (address : jsstring) (responseData : value)
  : Prop :=
  exists r, network w address = Resolves r /\ json_result r = Normal responseData.

(** What the [try] block ends in for a reply of the network. *)
Definition searchOutcome (q : jsstring) (reply : fetched) : completion Response :=
  match reply with
  | Rejects e => Throw e
  | Resolves r => (responseData <- json_result r ;; shapeResults q responseData)%cpl
  end.

(** The result array of a parsed reply, [responseData.pageProps.data]. *)
Definition dataOf (responseData : value) : value :=
  property (property responseData (js "pageProps")) (js "data").

(** The object the handler shapes out of the first result. *)
Definition shaped (firstResult : value) : value :=
  Obj [(js "title", logicalOr (property firstResult (js "title")) (Str (js "N/A")));
       (js "prompt", property firstResult (js "prompt"));
       (js "user", property (property firstResult (js "user")) (js "displayName"));
       (js "imageUrl", property firstResult (js "url"))].

Definition successResponse (firstResult : value) : Response :=
  {| body := JSON_stringify (shaped firstResult);
     status := 200;
     headers := [(js "Content-Type", js "application/json")] |}.

Definition noResultsResponse (q : jsstring) : Response :=
  {| body := errorBody (noResultsMessage q); status := 404; headers := [] |}.

Definition missingQueryResponse : Response :=
  {| body := errorBody missingQueryMessage; status := 400; headers := [] |}.

Definition faultResponse : Response :=
  {| body := errorBody faultMessage; status := 500; headers := [] |}.

Definition notFoundResponse : Response :=
  {| body := Some (js "Not Found"); status := 404; headers := [] |}.

(** The three shapes of a JSON body, each with its status codes. *)
Inductive variant : Type :=
| SuccessVariant
| NotFoundVariant
| ErrorVariant.

Definition hasVariant (q : jsstring) (v : variant) (r : Response) : Prop :=
  match v with
  | SuccessVariant =>
      status r = 200%N
      /\ exists title prompt user imageUrl,
           body r = JSON_stringify (Obj [(js "title", title);
                                         (js "prompt", prompt);
                                         (js "user", user);
                                         (js "imageUrl", imageUrl)])
  | NotFoundVariant =>
      status r = 404%N /\ body r = errorBody (noResultsMessage q)
  | ErrorVariant =>
      (status r = 400%N \/ status r = 500%N)
      /\ exists message, body r = errorBody message
  end.

(** The members of a serialized object, and the properties that have a
    value to serialize. *)
Fixpoint members (ps : list (jsstring * value)) : list jsstring :=
  match ps with
  | [] => []
  | (k, x) :: rest =>
      match SerializeJSONProperty x with
      | Some s => (QuoteJSONString k ++ js ":" ++ s) :: members rest
      | None => members rest
      end
  end.

Definition definedProperties (ps : list (jsstring * value))
  : list (jsstring * value) :=
  filter (fun p => match snd p with Undefined => false | _ => true end) ps.

End Vocabulary.

(** ** The server that calls the handler: [std/http/server.ts]

    [index.ts] hands [handler] to [serve]; the [Server] class behind it
    tracks the listeners and the connections it has open, answers each
    request through [#respond] and backs off after a failed [accept]. *)

Definition INITIAL_ACCEPT_BACKOFF_DELAY : N := 5.

Definition MAX_ACCEPT_BACKOFF_DELAY : N := 1000.

Definition ERROR_SERVER_CLOSED : jsstring := js "Server closed".

(** The update of [acceptBackoffDelay] in the [catch] clause of [#accept];
    [None] is [undefined], and [!acceptBackoffDelay] holds of it and of 0.
    The delays stay whole numbers far below 2^53, where the arithmetic of
    Numbers is that of the naturals. *)
Definition nextAcceptBackoffDelay (acceptBackoffDelay : option N) : N :=
  let doubled :=
    match acceptBackoffDelay with
    | None | Some 0%N => INITIAL_ACCEPT_BACKOFF_DELAY
    | Some d => (d * 2)%N
    end in
  if N.leb MAX_ACCEPT_BACKOFF_DELAY doubled then MAX_ACCEPT_BACKOFF_DELAY
  else doubled.

(** What one [listener.accept()] of the loop ends in: a connection, one of
    the errors the loop takes for transient, or another error, which the
    loop throws on. *)
Inductive acceptOutcome : Type :=
| Connection
| TransientError
| OtherError.

(** The delays [#accept] waits for, in order, while [listener.accept()] goes
    through the given outcomes and the server stays open: a connection sets
    [acceptBackoffDelay] back to [undefined], another error ends the loop. *)
Fixpoint acceptDelays (outcomes : list acceptOutcome)
         (acceptBackoffDelay : option N) : list N :=
  match outcomes with
  | [] => []
  | Connection :: rest => acceptDelays rest None
  | TransientError :: rest =>
      let delay := nextAcceptBackoffDelay acceptBackoffDelay in
      delay :: acceptDelays rest (Some delay)
  | OtherError :: _ => []
  end.

(** The delay after [i] doublings of the initial one, capped. *)
Definition backoffAfter (i : nat) : N :=
  N.min (INITIAL_ACCEPT_BACKOFF_DELAY * 2 ^ N.of_nat i) MAX_ACCEPT_BACKOFF_DELAY.

(** Errors of the runtime the server meets. *)
Inductive denoError : Type :=
| Http (message : jsstring)
| BadResource
| Raised (name : jsstring).

Inductive outcome (A : Type) : Type :=
| Returns (a : A)
| Throws (e : denoError).

Arguments Returns {A} a.
Arguments Throws {A} e.

Section ServerModel.

Context {Num_ops : Number}.

(** The private fields of a [Server].  Listeners and connections are named
    by their resource ids; the two Sets are lists in insertion order. *)
Record Server : Type := {
  server_addr : option jsstring;
  server_handler : Request -> Eff Response;
  server_closed : bool;
  server_listeners : list nat;
  server_httpConnections : list nat
}.

(** What lies outside the server: the resources that are open, the responses
    handed to [respondWith] with the connection they went to, and the world
    of the handler. *)
Record system : Type := {
  resources : list nat;
  responses : list (nat * Response);
  outside : world
}.

(** An HTTP request as the connection yields it: the request, and whether
    [respondWith] will get the response through. *)
Record RequestEvent : Type := {
  event_request : Request;
  event_deliverable : bool
}.

Definition setClosed (s : Server) (b : bool) : Server :=
  {| server_addr := server_addr s;
     server_handler := server_handler s;
     server_closed := b;
     server_listeners := server_listeners s;
     server_httpConnections := server_httpConnections s |}.

Definition setListeners (s : Server) (l : list nat) : Server :=
  {| server_addr := server_addr s;
     server_handler := server_handler s;
     server_closed := server_closed s;
     server_listeners := l;
     server_httpConnections := server_httpConnections s |}.

Definition setHttpConnections (s : Server) (l : list nat) : Server :=
  {| server_addr := server_addr s;
     server_handler := server_handler s;
     server_closed := server_closed s;
     server_listeners := server_listeners s;
     server_httpConnections := l |}.

Definition setOutside (sys : system) (w : world) : system :=
  {| resources := resources sys; responses := responses sys; outside := w |}.

(** [Set.prototype.add] and [Set.prototype.delete] *)
Definition Set_add (x : nat) (l : list nat) : list nat :=
  if existsb (Nat.eqb x) l then l else l ++ [x].

Definition Set_delete (x : nat) (l : list nat) : list nat :=
  filter (fun y => negb (Nat.eqb x y)) l.

(** [resource.close()]: a resource that is not open raises BadResource. *)
Definition closeResource (rid : nat) (sys : system) : outcome unit * system :=
  if existsb (Nat.eqb rid) (resources sys)
  then (Returns tt,
        {| resources := Set_delete rid (resources sys);
           responses := responses sys;
           outside := outside sys |})
  else (Throws BadResource, sys).

(** [try { resource.close(); } catch { }] *)
Definition tryClose (rid : nat) (sys : system) : system :=
  snd (closeResource rid sys).

Definition trackListener (listener : nat) (s : Server) : Server :=
  setListeners s (Set_add listener (server_listeners s)).

Definition untrackListener (listener : nat) (s : Server) : Server :=
  setListeners s (Set_delete listener (server_listeners s)).

Definition trackHttpConnection (httpConn : nat) (s : Server) : Server :=
  setHttpConnections s (Set_add httpConn (server_httpConnections s)).

Definition untrackHttpConnection (httpConn : nat) (s : Server) : Server :=
  setHttpConnections s (Set_delete httpConn (server_httpConnections s)).

Definition closeHttpConn (httpConn : nat) (st : Server * system)
  : Server * system :=
  (untrackHttpConnection httpConn (fst st), tryClose httpConn (snd st)).

(** [server.close()] *)
Definition close (st : Server * system) : outcome unit * (Server * system) :=
  let (s, sys) := st in
  if server_closed s then (Throws (Http ERROR_SERVER_CLOSED), st)
  else
    let s := setClosed s true in
    let sys := fold_left (fun sys listener => tryClose listener sys)
                         (server_listeners s) sys in
    let s := setListeners s [] in
    let st := fold_left (fun st httpConn => closeHttpConn httpConn st)
                        (server_httpConnections s) (s, sys) in
    (Returns tt, (setHttpConnections (fst st) [], snd st)).

(** [server.serve(listener)], for any course [accept] the accept loop may
    take on the tracked listener. *)
Definition serve
           (accept : nat -> Server * system -> outcome unit * (Server * system))
           (listener : nat) (st : Server * system)
  : outcome unit * (Server * system) :=
  if server_closed (fst st) then (Throws (Http ERROR_SERVER_CLOSED), st)
  else
    let st := (trackListener listener (fst st), snd st) in
    let (result, st) := accept listener st in
    (* finally *)
    let st := (untrackListener listener (fst st), snd st) in
    let st := (fst st, tryClose listener (snd st)) in
    (result, st).

(** [#respond(requestEvent, httpConn, connInfo)]; the handler of [index.ts]
    takes the request only. *)
Definition respond (requestEvent : RequestEvent) (httpConn : nat)
           (st : Server * system) : outcome unit * (Server * system) :=
  let (s, sys) := st in
  match server_handler s (event_request requestEvent) (outside sys) with
  | (Normal response, w) =>
      if event_deliverable requestEvent
      then (Returns tt,
            (s, {| resources := resources sys;
                   responses := responses sys ++ [(httpConn, response)];
                   outside := w |}))
      else (Returns tt, closeHttpConn httpConn (s, setOutside sys w))
  | (Throw _, w) =>
      (Returns tt, closeHttpConn httpConn (s, setOutside sys w))
  end.

(** The server [serve(handler, ...)] of [index.ts] builds. *)
Definition newServer (addr : option jsstring) (h : Request -> Eff Response)
  : Server :=
  {| server_addr := addr;
     server_handler := h;
     server_closed := false;
     server_listeners := [];
     server_httpConnections := [] |}.

End ServerModel.

(** The sample result with two more fields. *)
Definition richResult : value :=
  Obj [(js "id", Str (js "42"));
       (js "title", Str (js "T"));
       (js "prompt", Str (js "P"));
       (js "user", Obj [(js "displayName", Str (js "U"));
                        (js "email", Str (js "u@x"))]);
       (js "url", Str (js "http://x"))].

(** A server with one listener and two connections, among four open
    resources; and an accept loop that fails at once. *)
Definition sampleServer : Server :=
  {| server_addr := Some (js ":8000");
     server_handler := handler;
     server_closed := false;
     server_listeners := [3];
     server_httpConnections := [7; 9] |}.

Definition sampleSystem : system :=
  {| resources := [3; 7; 9; 11];
     responses := [];
     outside := answering (pageOf (Arr [sampleResult])) |}.

Definition failingAccept (listener : nat) (st : Server * system)
  : outcome unit * (Server * system) :=
  (Throws (Raised (js "PermissionDenied")), st).

(** * Properties *)

Section StringFacts.

Lemma jsstring_eqb_eq (s t : jsstring) : jsstring_eqb s t = true <-> s = t.
Proof.
  revert t; induction s as [|c s IH]; intros [|d t]; simpl;
    try (split; [discriminate | discriminate]); try tauto.
  rewrite andb_true_iff, N.eqb_eq, IH.
  split; [intros [-> ->]; reflexivity | intros H; inversion H; auto].
Qed.

Lemma jsstring_eqb_refl (s : jsstring) : jsstring_eqb s s = true.
Proof. apply jsstring_eqb_eq; reflexivity. Qed.

Lemma jsstring_eqb_neq (s t : jsstring) : s <> t -> jsstring_eqb s t = false.
Proof.
  intros H; destruct (jsstring_eqb s t) eqn:E; [|reflexivity].
  apply jsstring_eqb_eq in E; contradiction.
Qed.

Lemma uriUnescaped_ascii (c : N) : uriUnescaped c = true -> (c < 128)%N.
Proof.
  unfold uriUnescaped; cbn [js list_ascii_of_string map existsb].
  rewrite !orb_true_iff, !andb_true_iff, !N.leb_le, !N.eqb_eq.
  cbn; lia.
Qed.

Lemma uriUnescaped_not_surrogate (c : N) :
  uriUnescaped c = true ->
  isLeadingSurrogate c = false /\ isTrailingSurrogate c = false.
Proof.
  intros H%uriUnescaped_ascii.
  unfold isLeadingSurrogate, isTrailingSurrogate.
  split; apply andb_false_iff; left; apply N.leb_gt; lia.
Qed.

(** A well-formed string is encoded without a URIError. *)
Lemma encodeURIComponent_total (s : jsstring) :
  isWellFormed s = true -> exists r, encodeURIComponent s = Normal r.
Proof.
  remember (List.length s) as n eqn:Hn.
  revert s Hn; induction n as [n IH] using lt_wf_ind; intros s Hn Hwf.
  destruct s as [|c rest]; [eexists; reflexivity|].
  simpl in Hn, Hwf |- *.
  destruct (uriUnescaped c) eqn:Hu.
  - apply uriUnescaped_not_surrogate in Hu as [Hl Ht].
    rewrite Hl, Ht in Hwf.
    destruct (IH (List.length rest)) with (s := rest) as [r Hr]; [lia | reflexivity | exact Hwf |].
    rewrite Hr; eexists; reflexivity.
  - destruct (isLeadingSurrogate c).
    + destruct rest as [|d rest']; [discriminate|].
      apply andb_true_iff in Hwf as [Hd Hw]; rewrite Hd.
      destruct (IH (List.length rest')) with (s := rest') as [r Hr];
        [simpl in Hn; lia | reflexivity | exact Hw |].
      rewrite Hr; eexists; reflexivity.
    + destruct (isTrailingSurrogate c); [discriminate|].
      destruct (IH (List.length rest)) with (s := rest) as [r Hr]; [lia | reflexivity | exact Hwf |].
      rewrite Hr; eexists; reflexivity.
Qed.

Lemma hexDigit_upper_range (d : N) :
  (48 <= hexDigit true d <= 57 \/ 65 <= hexDigit true d)%N.
Proof.
  unfold hexDigit; destruct (N.ltb_spec d 10); lia.
Qed.

Lemma percentEncode_units (cp c : N) :
  In c (percentEncode cp) -> c = 37%N \/ exists d, c = hexDigit true d.
Proof.
  unfold percentEncode, utf8.
  destruct (N.ltb cp 128);
    [|destruct (N.ltb cp 2048); [|destruct (N.ltb cp 65536)]];
    cbn [flat_map hex2 app In]; intros H;
    repeat (destruct H as [H|H];
            [subst c; first [left; reflexivity | right; eexists; reflexivity]|]);
    contradiction.
Qed.

Lemma percentEncode_no_delimiter (cp c : N) :
  In c (percentEncode cp) -> uriDelimiter c = false.
Proof.
  intros [->|[d ->]]%percentEncode_units; [reflexivity|].
  pose proof (hexDigit_upper_range d) as H.
  unfold uriDelimiter; cbn [js list_ascii_of_string map existsb].
  rewrite !orb_false_iff, !N.eqb_neq; cbn; lia.
Qed.

Lemma uriUnescaped_no_delimiter (c : N) :
  uriUnescaped c = true -> uriDelimiter c = false.
Proof.
  unfold uriUnescaped, uriDelimiter; cbn [js list_ascii_of_string map existsb].
  rewrite !orb_true_iff, !andb_true_iff, !N.leb_le, !N.eqb_eq.
  rewrite !orb_false_iff, !N.eqb_neq; cbn; lia.
Qed.

(** An encoded string holds no raw delimiter. *)
Lemma encodeURIComponent_no_delimiter (s r : jsstring) :
  encodeURIComponent s = Normal r ->
  forall c, In c r -> uriDelimiter c = false.
Proof.
  remember (List.length s) as n eqn:Hn.
  revert s r Hn; induction n as [n IH] using lt_wf_ind; intros s r Hn.
  destruct s as [|c rest]; simpl in Hn |- *.
  { intros [= <-] c []. }
  destruct (uriUnescaped c) eqn:Hu.
  - destruct (encodeURIComponent rest) as [r'|] eqn:Hr; simpl; [|discriminate].
    intros [= <-] x [<-|Hx]; [now apply uriUnescaped_no_delimiter|].
    eapply (IH (List.length rest)); eauto; lia.
  - destruct (isLeadingSurrogate c).
    + destruct rest as [|d rest']; [discriminate|].
      destruct (isTrailingSurrogate d); [|discriminate].
      destruct (encodeURIComponent rest') as [r'|] eqn:Hr; simpl; [|discriminate].
      intros [= <-] x [Hx|Hx]%in_app_or; [now apply percentEncode_no_delimiter in Hx|].
      eapply (IH (List.length rest')); eauto; simpl in Hn; lia.
    + destruct (isTrailingSurrogate c); [discriminate|].
      destruct (encodeURIComponent rest) as [r'|] eqn:Hr; simpl; [|discriminate].
      intros [= <-] x [Hx|Hx]%in_app_or; [now apply percentEncode_no_delimiter in Hx|].
      eapply (IH (List.length rest)); eauto; lia.
Qed.

End StringFacts.

Section HandlerFacts.

Context {Num_ops : Number}.

Lemma Get_present (v : value) (k : jsstring) :
  isObjectCoercible v = true -> Get v k = Normal (property v k).
Proof. unfold Get; intros ->; reflexivity. Qed.

Lemma Get_absent (v : value) (k : jsstring) :
  isObjectCoercible v = false -> Get v k = Throw TypeError.
Proof. unfold Get; intros ->; reflexivity. Qed.

Lemma property_present (v : value) (k : jsstring) :
  isObjectCoercible (property v k) = true -> isObjectCoercible v = true.
Proof. destruct v; simpl; auto. Qed.

Lemma property_Arr_length (l : list value) :
  property (Arr l) (js "length") = Num (Number_of_nat (List.length l)).
Proof. reflexivity. Qed.

Lemma property_Arr_first (x : value) (l : list value) :
  property (Arr (x :: l)) (js "0") = x.
Proof. reflexivity. Qed.

Lemma greaterThanZero_length (n : nat) :
  greaterThanZero (Num (Number_of_nat n)) = Normal (Nat.ltb 0 n).
Proof.
  unfold greaterThanZero; simpl.
  rewrite Number_lessThan_zero_of_nat; reflexivity.
Qed.

(** The test [data && data.length > 0] on an array. *)
Lemma nonEmpty_Arr (l : list value) :
  (if ToBoolean (Arr l)
   then (len <- Get (Arr l) (js "length") ;; greaterThanZero len)%cpl
   else Normal false)
  = Normal (match l with [] => false | _ => true end).
Proof.
  unfold ToBoolean; rewrite Get_present by reflexivity.
  rewrite property_Arr_length; unfold cbind.
  rewrite greaterThanZero_length; destruct l; reflexivity.
Qed.

Lemma errorBody_text (message : jsstring) :
  errorBody message
  = Some (jsq "{`error`:" ++ QuoteJSONString message ++ js "}").
Proof. reflexivity. Qed.

(** *** Serialization *)

Lemma SerializeJSONProperty_None (v : value) :
  SerializeJSONProperty v = None <-> v = Undefined.
Proof.
  destruct v as [| |[|]| | | |]; simpl; split; congruence.
Qed.

Lemma SerializeJSONProperty_Obj (ps : list (jsstring * value)) :
  SerializeJSONProperty (Obj ps)
  = Some (js "{" ++ joinComma (members ps) ++ js "}").
Proof.
  reflexivity.
Qed.

Lemma members_defined (ps : list (jsstring * value)) :
  members (definedProperties ps) = members ps.
Proof.
  induction ps as [|[k x] ps IH]; simpl; [reflexivity|].
  destruct x as [| |[|]| | | |]; simpl; rewrite IH; reflexivity.
Qed.

(** Properties that are [undefined] leave no trace in the serialization. *)
Lemma JSON_stringify_defined (ps : list (jsstring * value)) :
  JSON_stringify (Obj ps) = JSON_stringify (Obj (definedProperties ps)).
Proof.
  unfold JSON_stringify.
  rewrite !SerializeJSONProperty_Obj, members_defined; reflexivity.
Qed.

(** *** The shaping step *)

Lemma dataOf_present (responseData : value) :
  isObjectCoercible (dataOf responseData) = true ->
  isObjectCoercible (property responseData (js "pageProps")) = true
  /\ isObjectCoercible responseData = true.
Proof.
  intros H; apply property_present in H; split; [exact H|].
  now apply property_present in H.
Qed.

Lemma shapeResults_navigate (q : jsstring) (responseData : value) :
  isObjectCoercible (property responseData (js "pageProps")) = true ->
  shapeResults q responseData
  = (nonEmpty <- (if ToBoolean (dataOf responseData)
                  then len <- Get (dataOf responseData) (js "length") ;;
                       greaterThanZero len
                  else Normal false) ;;
     if nonEmpty : bool then
       firstResult <- Get (dataOf responseData) (js "0") ;;
       title <- Get firstResult (js "title") ;;
       prompt <- Get firstResult (js "prompt") ;;
       user <- Get firstResult (js "user") ;;
       displayName <- Get user (js "displayName") ;;
       imageUrl <- Get firstResult (js "url") ;;
       Normal {| body := JSON_stringify
                           (Obj [(js "title", logicalOr title (Str (js "N/A")));
                                 (js "prompt", prompt);
                                 (js "user", displayName);
                                 (js "imageUrl", imageUrl)]);
                 status := 200;
                 headers := [(js "Content-Type", js "application/json")] |}
     else Normal (noResultsResponse q))%cpl.
Proof.
  intros Hpp; unfold shapeResults.
  rewrite (Get_present responseData) by (now apply property_present in Hpp).
  unfold cbind at 1.
  rewrite (Get_present _ (js "data") Hpp).
  reflexivity.
Qed.

(** The shaping of a first result: it throws when the result or its [user]
    is [undefined] or [null]. *)
Lemma shape_first (first : value) :
  (title <- Get first (js "title") ;;
   prompt <- Get first (js "prompt") ;;
   user <- Get first (js "user") ;;
   displayName <- Get user (js "displayName") ;;
   imageUrl <- Get first (js "url") ;;
   Normal {| body := JSON_stringify
                       (Obj [(js "title", logicalOr title (Str (js "N/A")));
                             (js "prompt", prompt);
                             (js "user", displayName);
                             (js "imageUrl", imageUrl)]);
             status := 200;
             headers := [(js "Content-Type", js "application/json")] |})%cpl
  = if isObjectCoercible (property first (js "user"))
    then Normal (successResponse first)
    else Throw TypeError.
Proof.
  destruct (isObjectCoercible (property first (js "user"))) eqn:Hu.
  - pose proof (property_present _ _ Hu) as Hf.
    rewrite !(Get_present first) by exact Hf; unfold cbind.
    rewrite (Get_present _ (js "displayName") Hu).
    reflexivity.
  - destruct (isObjectCoercible first) eqn:Hf.
    + rewrite !(Get_present first) by exact Hf; unfold cbind.
      rewrite (Get_absent _ (js "displayName") Hu); reflexivity.
    + rewrite (Get_absent first (js "title") Hf); reflexivity.
Qed.

Lemma shapeResults_success (q : jsstring) (responseData first : value)
      (rest : list value) :
  dataOf responseData = Arr (first :: rest) ->
  isObjectCoercible (property first (js "user")) = true ->
  shapeResults q responseData = Normal (successResponse first).
Proof.
  intros Hd Hu.
  assert (Hc : isObjectCoercible (dataOf responseData) = true)
    by (rewrite Hd; reflexivity).
  apply dataOf_present in Hc as [Hpp _].
  rewrite shapeResults_navigate by exact Hpp.
  rewrite Hd, nonEmpty_Arr; unfold cbind at 1.
  rewrite Get_present by reflexivity.
  rewrite property_Arr_first; unfold cbind at 1.
  rewrite shape_first, Hu; reflexivity.
Qed.

Lemma shapeResults_user_absent (q : jsstring) (responseData first : value)
      (rest : list value) :
  dataOf responseData = Arr (first :: rest) ->
  isObjectCoercible (property first (js "user")) = false ->
  shapeResults q responseData = Throw TypeError.
Proof.
  intros Hd Hu.
  assert (Hc : isObjectCoercible (dataOf responseData) = true)
    by (rewrite Hd; reflexivity).
  apply dataOf_present in Hc as [Hpp _].
  rewrite shapeResults_navigate by exact Hpp.
  rewrite Hd, nonEmpty_Arr; unfold cbind at 1.
  rewrite Get_present by reflexivity.
  rewrite property_Arr_first; unfold cbind at 1.
  rewrite shape_first, Hu; reflexivity.
Qed.

Lemma shapeResults_noResults (q : jsstring) (responseData : value) :
  isObjectCoercible (property responseData (js "pageProps")) = true ->
  ToBoolean (dataOf responseData) = false \/ dataOf responseData = Arr [] ->
  shapeResults q responseData = Normal (noResultsResponse q).
Proof.
  intros Hpp Hd.
  rewrite shapeResults_navigate by exact Hpp.
  destruct Hd as [Hd|Hd].
  - rewrite Hd; reflexivity.
  - rewrite Hd, nonEmpty_Arr; reflexivity.
Qed.

Lemma shapeResults_pageProps_absent (q : jsstring) (responseData : value) :
  isObjectCoercible (property responseData (js "pageProps")) = false ->
  shapeResults q responseData = Throw TypeError.
Proof.
  intros Hpp; unfold shapeResults.
  destruct (isObjectCoercible responseData) eqn:Hr.
  - rewrite (Get_present responseData) by exact Hr; unfold cbind at 1.
    rewrite (Get_absent _ (js "data") Hpp); reflexivity.
  - rewrite (Get_absent responseData (js "pageProps") Hr); reflexivity.
Qed.

(** Whatever the parsed reply, the shaping step ends in the success response
    for the first result, in the no-results response, or in an exception. *)
Lemma shapeResults_cases (q : jsstring) (responseData : value) (resp : Response) :
  shapeResults q responseData = Normal resp ->
  resp = successResponse (property (dataOf responseData) (js "0"))
  \/ resp = noResultsResponse q.
Proof.
  destruct (isObjectCoercible (property responseData (js "pageProps"))) eqn:Hpp.
  2: { rewrite shapeResults_pageProps_absent by exact Hpp; discriminate. }
  rewrite shapeResults_navigate by exact Hpp.
  destruct (if ToBoolean (dataOf responseData)
            then (len <- Get (dataOf responseData) (js "length") ;;
                  greaterThanZero len)%cpl
            else Normal false) as [[|]|e] eqn:Hne; unfold cbind at 1.
  - assert (Hc : isObjectCoercible (dataOf responseData) = true).
    { destruct (dataOf responseData); simpl in Hne |- *;
        try reflexivity; discriminate. }
    rewrite Get_present by exact Hc; unfold cbind at 1.
    rewrite shape_first.
    destruct (isObjectCoercible
                (property (property (dataOf responseData) (js "0")) (js "user")));
      [|discriminate].
    intros H; inversion H; left; reflexivity.
  - intros H; inversion H; right; reflexivity.
  - discriminate.
Qed.

End HandlerFacts.

Section HandlerRuns.

Context {Num_ops : Number}.

Lemma searchUrlFor_total (endpoint q : jsstring) :
  isWellFormed q = true -> exists u, searchUrlFor endpoint q = Normal u.
Proof.
  intros [r Hr]%encodeURIComponent_total.
  unfold searchUrlFor; rewrite Hr; eexists; reflexivity.
Qed.

Lemma handler_at_other_path (endpoint : jsstring) (request : Request) (w : world) :
  pathname (url request) <> js "/search" ->
  handler_at endpoint request w = (Normal notFoundResponse, w).
Proof.
  intros H; unfold handler_at.
  rewrite (jsstring_eqb_neq _ _ H); reflexivity.
Qed.

Lemma handler_at_missing_query (endpoint : jsstring) (request : Request) (w : world) :
  pathname (url request) = js "/search" ->
  queryOf request = [] ->
  handler_at endpoint request w = (Normal missingQueryResponse, w).
Proof.
  intros Hp Hq; unfold handler_at, queryOf in *.
  rewrite Hp, jsstring_eqb_refl.
  destruct (searchParams_get (url request) (js "q")) as [[|c q]|];
    [reflexivity | discriminate | reflexivity].
Qed.

Lemma searchAndShape_run (u q : jsstring) (w : world) :
  searchAndShape u q w = (searchOutcome q (network w u), called w u).
Proof.
  unfold searchAndShape, searchOutcome, bind, fetch, json, lift.
  destruct (network w u) as [e|r]; [reflexivity|].
  destruct (json_result r); reflexivity.
Qed.

(** The handler, case by case. *)
Lemma handler_at_run (endpoint : jsstring) (request : Request) (w : world) :
  handler_at endpoint request w
  = if jsstring_eqb (pathname (url request)) (js "/search") then
      match queryOf request with
      | [] => (Normal missingQueryResponse, w)
      | q =>
          match searchUrlFor endpoint q with
          | Normal u =>
              match searchOutcome q (network w u) with
              | Normal resp => (Normal resp, called w u)
              | Throw e =>
                  (Normal faultResponse,
                   logged (called w u) (js "Error fetching search results:") e)
              end
          | Throw e => (Throw e, w)
          end
      end
    else (Normal notFoundResponse, w).
Proof.
  unfold handler_at, queryOf.
  destruct (jsstring_eqb (pathname (url request)) (js "/search")); [|reflexivity].
  destruct (searchParams_get (url request) (js "q")) as [[|c q]|];
    try reflexivity.
  unfold bind at 1, lift.
  destruct (searchUrlFor endpoint (c :: q)) as [u|e]; [|reflexivity].
  unfold try_catch; rewrite searchAndShape_run.
  destruct (searchOutcome (c :: q) (network w u)); reflexivity.
Qed.

Lemma searchRequest_queryOf (request : Request) (q : jsstring) :
  searchRequest request q -> queryOf request = q.
Proof. intros (_ & Hq & _); unfold queryOf; rewrite Hq; reflexivity. Qed.

Lemma handler_at_search (endpoint : jsstring) (request : Request)
      (q u : jsstring) (w : world) :
  searchRequest request q ->
  searchUrlFor endpoint q = Normal u ->
  handler_at endpoint request w
  = match searchOutcome q (network w u) with
    | Normal resp => (Normal resp, called w u)
    | Throw e =>
        (Normal faultResponse,
         logged (called w u) (js "Error fetching search results:") e)
    end.
Proof.
  intros Hs Hu; rewrite handler_at_run.
  rewrite (searchRequest_queryOf _ _ Hs).
  destruct Hs as (Hp & _ & Hne & _).
  rewrite Hp, jsstring_eqb_refl.
  destruct q as [|c q]; [contradiction|].
  cbv beta iota zeta; rewrite Hu; reflexivity.
Qed.

Lemma searchOutcome_gives (q : jsstring) (w : world) (u : jsstring)
      (responseData : value) :
  upstreamGives w u responseData ->
  searchOutcome q (network w u) = shapeResults q responseData.
Proof.
  intros (r & Hn & Hj); rewrite Hn; simpl; rewrite Hj; reflexivity.
Qed.

(** What the handler returns is one of five responses. *)
Lemma handler_at_responses (endpoint : jsstring) (request : Request)
      (w : world) (resp : Response) :
  fst (handler_at endpoint request w) = Normal resp ->
  (pathname (url request) <> js "/search" /\ resp = notFoundResponse)
  \/ (pathname (url request) = js "/search"
      /\ ((queryOf request = [] /\ resp = missingQueryResponse)
          \/ (queryOf request <> []
              /\ ((exists first, resp = successResponse first)
                  \/ resp = noResultsResponse (queryOf request)
                  \/ resp = faultResponse)))).
Proof.
  rewrite handler_at_run.
  destruct (jsstring_eqb (pathname (url request)) (js "/search")) eqn:Hp.
  2: { intros H; inversion H; left; split; [|reflexivity].
       intros E; rewrite E, jsstring_eqb_refl in Hp; discriminate. }
  apply jsstring_eqb_eq in Hp.
  intros H; right; split; [exact Hp|].
  destruct (queryOf request) as [|c q] eqn:Hq.
  { inversion H; left; split; reflexivity. }
  right; split; [discriminate|].
  cbv zeta in H.
  destruct (searchUrlFor endpoint (c :: q)) as [u|e]; [|discriminate].
  destruct (searchOutcome (c :: q) (network w u)) as [r|e] eqn:Ho.
  - inversion H; subst r.
    destruct (network w u) as [e|r]; simpl in Ho; [discriminate|].
    destruct (json_result r) as [rd|e]; simpl in Ho; [|discriminate].
    apply shapeResults_cases in Ho as [->| ->]; eauto.
  - inversion H; auto.
Qed.

Lemma searchOutcome_status (q : jsstring) (reply : fetched) (resp : Response) :
  searchOutcome q reply = Normal resp ->
  status resp = 200%N \/ status resp = 404%N.
Proof.
  destruct reply as [e|r]; simpl; [discriminate|].
  destruct (json_result r) as [rd|e]; simpl; [|discriminate].
  intros [->| ->]%shapeResults_cases; auto.
Qed.

Lemma world_eta (w : world) :
  w = {| network := network w;
         outbound := outbound w ++ [];
         console := console w ++ [] |}.
Proof. destruct w; simpl; rewrite !app_nil_r; reflexivity. Qed.

(** The response depends on the world only through the reply of the network
    to the address of the request. *)
Lemma handler_at_deterministic (endpoint : jsstring) (request : Request)
      (w w' : world) :
  (forall u, searchUrlFor endpoint (queryOf request) = Normal u ->
             network w u = network w' u) ->
  fst (handler_at endpoint request w) = fst (handler_at endpoint request w').
Proof.
  intros H; rewrite !handler_at_run.
  destruct (jsstring_eqb (pathname (url request)) (js "/search")); [|reflexivity].
  destruct (queryOf request) as [|c q]; [reflexivity|]; cbv zeta.
  destruct (searchUrlFor endpoint (c :: q)) as [u|e]; [|reflexivity].
  rewrite <- (H u eq_refl).
  destruct (searchOutcome (c :: q) (network w u)); reflexivity.
Qed.

(** The effects of one invocation: at most one outbound call, and one line
    on the console exactly when the fault response is returned. *)
Lemma handler_at_effects (endpoint : jsstring) (request : Request) (w : world) :
  exists calls lines,
    snd (handler_at endpoint request w)
    = {| network := network w;
         outbound := outbound w ++ calls;
         console := console w ++ lines |}
    /\ (List.length calls <= 1)%nat
    /\ ((lines = []
         /\ fst (handler_at endpoint request w) <> Normal faultResponse)
        \/ (exists u e,
              calls = [u]
              /\ lines = [(js "Error fetching search results:", e)]
              /\ fst (handler_at endpoint request w) = Normal faultResponse)).
Proof.
  rewrite handler_at_run.
  destruct (jsstring_eqb (pathname (url request)) (js "/search")).
  2: { exists [], []; split; [apply world_eta|]; split; [simpl; lia|].
       left; split; [reflexivity | discriminate]. }
  destruct (queryOf request) as [|c q].
  { exists [], []; split; [apply world_eta|]; split; [simpl; lia|].
    left; split; [reflexivity | discriminate]. }
  cbv zeta.
  destruct (searchUrlFor endpoint (c :: q)) as [u|e].
  2: { exists [], []; split; [apply world_eta|]; split; [simpl; lia|].
       left; split; [reflexivity | discriminate]. }
  destruct (searchOutcome (c :: q) (network w u)) as [resp|e] eqn:Ho.
  - exists [u], []; split; [|split; [simpl; lia|]].
    + unfold called; simpl; rewrite app_nil_r; reflexivity.
    + left; split; [reflexivity|].
      apply searchOutcome_status in Ho.
      simpl; intros E; inversion E; subst resp.
      destruct Ho; discriminate.
  - exists [u], [(js "Error fetching search results:", e)].
    split; [reflexivity|]; split; [simpl; lia|].
    right; exists u, e; repeat split.
Qed.

End HandlerRuns.

(** ** The claims *)

(** The status of a response settles its variant. *)
Ltac by_status :=
  let H := fresh "H" in
  intros [| |]; simpl; intros [H _];
  first [reflexivity | discriminate | destruct H; discriminate].

Section Claims.

Context {Num_ops : Number}.

(** C1, amended: for a [/search] request with a non-empty query, when
    [pageProps.data] of the parsed reply is an array with at least one element
    and the [user] of its first element is present (neither [undefined] nor
    [null]), the handler, whichever of the two endpoints it is built with
    ([handler] of [index.ts], [handler_compiled] of the compiled copy),
    answers with status 200, the header [Content-Type: application/json] and
    the serialization of [{title, prompt, user, imageUrl}]: [title] is the
    first element's [title], or ["N/A"] when that is missing or falsy,
    [prompt] is its [prompt], [user] is [user.displayName] and [imageUrl] is
    its [url]. *)
Theorem first_result_shaped (endpoint : jsstring) (request : Request)
        (q u : jsstring) (w : world) (responseData first : value)
        (rest : list value) :
  searchRequest request q ->
  searchUrlFor endpoint q = Normal u ->
  upstreamGives w u responseData ->
  dataOf responseData = Arr (first :: rest) ->
  isObjectCoercible (property first (js "user")) = true ->
  exists resp,
    fst (handler_at endpoint request w) = Normal resp
    /\ status resp = 200%N
    /\ headers resp = [(js "Content-Type", js "application/json")]
    /\ body resp
       = JSON_stringify
           (Obj [(js "title",
                  if ToBoolean (property first (js "title"))
                  then property first (js "title")
                  else Str (js "N/A"));
                 (js "prompt", property first (js "prompt"));
                 (js "user", property (property first (js "user")) (js "displayName"));
                 (js "imageUrl", property first (js "url"))]).
Proof.
  intros Hs Hu Hg Hd Huser.
  exists (successResponse first).
  rewrite (handler_at_search _ _ _ _ w Hs Hu), (searchOutcome_gives q _ _ _ Hg).
  rewrite (shapeResults_success q _ _ _ Hd Huser).
  repeat split.
Qed.

(** C2, amended: for a [/search] request with a non-empty query, when
    [pageProps] of the parsed reply is present and its [data] is absent (or
    otherwise falsy) or is the empty array, the handler answers with status
    404 and the serialization of [{error: "No results found for \"<query>\"."}],
    the query being put in as it came.  (When [pageProps] itself is absent
    the read of [data] throws and the [catch] clause answers.) *)
Theorem no_results_is_404 (request : Request) (q u : jsstring) (w : world)
        (responseData : value) :
  searchRequest request q ->
  searchUrlFor searchEndpoint q = Normal u ->
  upstreamGives w u responseData ->
  isObjectCoercible (property responseData (js "pageProps")) = true ->
  ToBoolean (dataOf responseData) = false \/ dataOf responseData = Arr [] ->
  exists resp,
    fst (handler request w) = Normal resp
    /\ status resp = 404%N
    /\ body resp
       = JSON_stringify
           (Obj [(js "error",
                  Str (js "No results found for " ++ [dquote] ++ q
                       ++ [dquote] ++ js "."))])
    /\ body resp
       = Some (jsq "{`error`:"
               ++ QuoteJSONString (js "No results found for " ++ [dquote] ++ q
                                   ++ [dquote] ++ js ".")
               ++ js "}").
Proof.
  intros Hs Hu Hg Hpp Hd.
  exists (noResultsResponse q).
  unfold handler.
  rewrite (handler_at_search _ _ _ _ w Hs Hu), (searchOutcome_gives q _ _ _ Hg).
  rewrite (shapeResults_noResults q _ Hpp Hd).
  split; [reflexivity|]; split; [reflexivity|]; split; [reflexivity|].
  exact (errorBody_text (noResultsMessage q)).
Qed.

(** C3: a [/search] request whose [q] is absent or empty is answered with
    status 400 and the body [{"error":"Please provide a search query."}], and
    the world is left as it was: no outbound call is made. *)
Theorem missing_query_is_400 (request : Request) (w : world) :
  pathname (url request) = js "/search" ->
  searchParams_get (url request) (js "q") = None
  \/ searchParams_get (url request) (js "q") = Some [] ->
  exists resp,
    handler request w = (Normal resp, w)
    /\ status resp = 400%N
    /\ body resp = Some (jsq "{`error`:`Please provide a search query.`}")
    /\ outbound (snd (handler request w)) = outbound w.
Proof.
  intros Hp Hq.
  assert (E : handler request w = (Normal missingQueryResponse, w)).
  { apply handler_at_missing_query; [exact Hp|].
    unfold queryOf; destruct Hq as [-> | ->]; reflexivity. }
  exists missingQueryResponse; rewrite E; repeat split.
Qed.

(** C4: for a [/search] request with a non-empty query the handler always
    returns a response, never an exception; and whenever the [try] block
    throws (the outbound call rejects, the body does not parse, or the
    navigation fails, as when the first result has no [user]) the response
    is status 500 with the fixed body
    [{"error":"Sorry, an error occurred while fetching the search results."}],
    whatever the exception was, which goes to the console only. *)
Theorem faults_become_500 (request : Request) (q u : jsstring) (w : world) :
  searchRequest request q ->
  searchUrlFor searchEndpoint q = Normal u ->
  (exists resp, fst (handler request w) = Normal resp)
  /\ (forall e,
        fst (searchAndShape u q w) = Throw e ->
        fst (handler request w) = Normal faultResponse
        /\ console (snd (handler request w))
           = console w ++ [(js "Error fetching search results:", e)])
  /\ (forall e,
        network w u = Rejects e ->
        fst (handler request w) = Normal faultResponse)
  /\ (forall r e,
        network w u = Resolves r -> json_result r = Throw e ->
        fst (handler request w) = Normal faultResponse)
  /\ (forall responseData first rest,
        upstreamGives w u responseData ->
        dataOf responseData = Arr (first :: rest) ->
        isObjectCoercible (property first (js "user")) = false ->
        fst (handler request w) = Normal faultResponse)
  /\ status faultResponse = 500%N
  /\ body faultResponse
     = Some (jsq "{`error`:`Sorry, an error occurred while fetching the search results.`}").
Proof.
  intros Hs Hu; unfold handler.
  rewrite (handler_at_search _ _ _ _ w Hs Hu).
  split; [|split; [|split; [|split; [|split; [|split; reflexivity]]]]].
  - destruct (searchOutcome q (network w u)); eexists; reflexivity.
  - intros e; rewrite searchAndShape_run; simpl.
    intros ->; split; reflexivity.
  - intros e ->; reflexivity.
  - intros r e -> Hj; simpl; rewrite Hj; reflexivity.
  - intros rd first rest Hg Hd Huser.
    rewrite (searchOutcome_gives q _ _ _ Hg), (shapeResults_user_absent q _ _ _ Hd Huser).
    reflexivity.
Qed.

(** C5: a request for any path other than [/search], whatever its method and
    query string, is answered with status 404 and the plain text [Not Found],
    and the world is left as it was: no outbound call is made. *)
Theorem other_paths_not_found (request : Request) (w : world) :
  pathname (url request) <> js "/search" ->
  exists resp,
    handler request w = (Normal resp, w)
    /\ status resp = 404%N
    /\ body resp = Some (js "Not Found")
    /\ contentType resp = js "text/plain;charset=UTF-8"
    /\ outbound (snd (handler request w)) = outbound w.
Proof.
  intros Hp; exists notFoundResponse.
  unfold handler; rewrite (handler_at_other_path _ _ w Hp).
  repeat split.
Qed.

(** C6: for a [/search] request with the non-empty query [q] the one outbound
    call goes to the fixed endpoint followed by [encodeURIComponent(q)], in
    which no space and no other delimiter is left as it is, while a 404
    answer carries [q] itself in its message. *)
Theorem outbound_address_encoded (request : Request) (q : jsstring) (w : world) :
  searchRequest request q ->
  exists encoded,
    encodeURIComponent q = Normal encoded
    /\ outbound (snd (handler request w))
       = outbound w
         ++ [js "https://playground.com/_next/data/DKheFsybTy-HQ-Exsbzy9/search.json?q="
             ++ encoded]
    /\ (forall c, In c encoded -> uriDelimiter c = false)
    /\ (forall resp,
          fst (handler request w) = Normal resp ->
          status resp = 404%N ->
          body resp
          = JSON_stringify
              (Obj [(js "error",
                     Str (js "No results found for " ++ [dquote] ++ q
                          ++ [dquote] ++ js "."))])).
Proof.
  intros Hs.
  destruct (encodeURIComponent_total q (proj2 (proj2 (proj2 Hs))))
    as [encoded He].
  assert (Hu : searchUrlFor searchEndpoint q = Normal (searchEndpoint ++ encoded))
    by (unfold searchUrlFor; rewrite He; reflexivity).
  exists encoded; split; [exact He|].
  unfold handler; rewrite (handler_at_search _ _ _ _ w Hs Hu).
  split; [|split].
  - destruct (searchOutcome q (network w (searchEndpoint ++ encoded)));
      reflexivity.
  - exact (encodeURIComponent_no_delimiter q encoded He).
  - intros resp Hr Hst.
    destruct (searchOutcome q (network w (searchEndpoint ++ encoded)))
      as [r|e] eqn:Ho; simpl in Hr; inversion Hr; subst resp.
    + destruct (network w (searchEndpoint ++ encoded)) as [e|r0];
        simpl in Ho; [discriminate|].
      destruct (json_result r0) as [rd|e]; simpl in Ho; [|discriminate].
      apply shapeResults_cases in Ho as [->| ->]; [discriminate|reflexivity].
    + discriminate.
Qed.

(** C7, amended: for every request for [/search] the handler returns a body
    of exactly one of the three JSON shapes with a matching status: success
    [{title, prompt, user, imageUrl}] with 200, not-found
    [{error: "No results found for \"<query>\"."}] with 404, or an error
    [{error: <message>}] with 400 or 500.  (Other paths get the plain text
    [Not Found].) *)
Theorem search_answers_one_variant (request : Request) (w : world) :
  pathname (url request) = js "/search" ->
  isWellFormed (queryOf request) = true ->
  exists resp v,
    fst (handler request w) = Normal resp
    /\ hasVariant (queryOf request) v resp
    /\ forall v', hasVariant (queryOf request) v' resp -> v' = v.
Proof.
  intros Hp Hwf.
  assert (Hret : exists resp, fst (handler request w) = Normal resp).
  { unfold handler; rewrite handler_at_run, Hp, jsstring_eqb_refl.
    destruct (queryOf request) as [|c q]; [eexists; reflexivity|].
    cbv zeta.
    destruct (searchUrlFor_total searchEndpoint (c :: q) Hwf) as [u ->].
    destruct (searchOutcome (c :: q) (network w u)); eexists; reflexivity. }
  destruct Hret as [resp Hr]; exists resp.
  destruct (handler_at_responses _ _ _ _ Hr)
    as [[Hn _]|[_ [[_ ->]|[_ [[first ->]|[->| ->]]]]]];
    [contradiction| | | |].
  - exists ErrorVariant; split; [exact Hr|]; split.
    + split; [left; reflexivity | eexists; reflexivity].
    + by_status.
  - exists SuccessVariant; split; [exact Hr|]; split.
    + split; [reflexivity | do 4 eexists; reflexivity].
    + by_status.
  - exists NotFoundVariant; split; [exact Hr|]; split.
    + split; reflexivity.
    + by_status.
  - exists ErrorVariant; split; [exact Hr|]; split.
    + split; [right; reflexivity | eexists; reflexivity].
    + by_status.
Qed.

(** C8: the response is settled by the request and by the reply of the
    network to the address of that request, whatever the calls and console
    lines of earlier invocations; an invocation changes the world by at most
    one outbound call and by one console line exactly on the fault path; and
    what an invocation leaves behind does not change the response to a later
    request. *)
Theorem handler_stateless (request later : Request) (w w' : world) :
  ((forall u, searchUrlFor searchEndpoint (queryOf request) = Normal u ->
              network w u = network w' u) ->
   fst (handler request w) = fst (handler request w'))
  /\ (exists calls lines,
        snd (handler request w)
        = {| network := network w;
             outbound := outbound w ++ calls;
             console := console w ++ lines |}
        /\ (List.length calls <= 1)%nat
        /\ ((lines = [] /\ fst (handler request w) <> Normal faultResponse)
            \/ (exists u e,
                  calls = [u]
                  /\ lines = [(js "Error fetching search results:", e)]
                  /\ fst (handler request w) = Normal faultResponse)))
  /\ fst (handler later (snd (handler request w))) = fst (handler later w).
Proof.
  split; [apply handler_at_deterministic|].
  split; [apply handler_at_effects|].
  destruct (handler_at_effects searchEndpoint request w)
    as (calls & lines & E & _).
  apply handler_at_deterministic; intros u _.
  unfold handler; rewrite E; reflexivity.
Qed.

(** C9: among the responses of the handler only the 200 success response is
    built with a [Content-Type] header, [application/json]; the 400, 404 and
    500 responses are built with no header at all, although all of them but
    the plain [Not Found] carry a serialized JSON body, so they go out with
    the content type of a string body. *)
Theorem content_type_only_on_success (endpoint : jsstring) (request : Request)
        (w : world) (resp : Response) :
  fst (handler_at endpoint request w) = Normal resp ->
  (status resp = 200%N
   /\ headers resp = [(js "Content-Type", js "application/json")]
   /\ contentType resp = js "application/json")
  \/ (In (status resp) [400; 404; 500]%N
      /\ headers resp = []
      /\ contentType resp = js "text/plain;charset=UTF-8"
      /\ (resp = notFoundResponse \/ exists message, body resp = errorBody message)).
Proof.
  intros Hr.
  destruct (handler_at_responses _ _ _ _ Hr)
    as [[_ ->]|[_ [[_ ->]|[_ [[first ->]|[->| ->]]]]]].
  - right; repeat split; simpl; auto.
  - right; repeat split; simpl; eauto.
  - left; repeat split.
  - right; repeat split; simpl; eauto.
  - right; repeat split; simpl; eauto 6.
Qed.

(** C10: in the 200 response, when the first result has no [prompt] the body
    is the serialization of the object without a [prompt] key, and when it
    has no [url] the body is the serialization of the object without an
    [imageUrl] key: a property that is [undefined] is left out, not written
    as null. *)
Theorem absent_fields_left_out (request : Request) (q u : jsstring) (w : world)
        (responseData first : value) (rest : list value) :
  searchRequest request q ->
  searchUrlFor searchEndpoint q = Normal u ->
  upstreamGives w u responseData ->
  dataOf responseData = Arr (first :: rest) ->
  isObjectCoercible (property first (js "user")) = true ->
  exists resp,
    fst (handler request w) = Normal resp
    /\ status resp = 200%N
    /\ (property first (js "prompt") = Undefined ->
        body resp
        = JSON_stringify
            (Obj [(js "title",
                   logicalOr (property first (js "title")) (Str (js "N/A")));
                  (js "user",
                   property (property first (js "user")) (js "displayName"));
                  (js "imageUrl", property first (js "url"))]))
    /\ (property first (js "url") = Undefined ->
        body resp
        = JSON_stringify
            (Obj [(js "title",
                   logicalOr (property first (js "title")) (Str (js "N/A")));
                  (js "prompt", property first (js "prompt"));
                  (js "user",
                   property (property first (js "user")) (js "displayName"))])).
Proof.
  intros Hs Hu Hg Hd Huser.
  exists (successResponse first).
  unfold handler.
  rewrite (handler_at_search _ _ _ _ w Hs Hu), (searchOutcome_gives q _ _ _ Hg).
  rewrite (shapeResults_success q _ _ _ Hd Huser).
  split; [reflexivity|]; split; [reflexivity|].
  unfold successResponse, shaped; cbn [body].
  split; intros E; rewrite E;
    rewrite JSON_stringify_defined;
    symmetry; rewrite JSON_stringify_defined; reflexivity.
Qed.

End Claims.

(** ** The claims on examples *)

Ltac search_request :=
  repeat split; try reflexivity; cbv; discriminate.

Ltac upstream_gives :=
  eexists; split; reflexivity.

(** C1 at [/search?q=foo] and a reply with one complete result. *)
Lemma first_result_shaped_witness :
  searchRequest (get "/search" [param "q" "foo"]) (js "foo")
  /\ exists resp,
       fst (handler (get "/search" [param "q" "foo"])
                    (answering (pageOf (Arr [sampleResult]))))
       = Normal resp
       /\ status resp = 200%N
       /\ body resp
          = Some (jsq "{`title`:`T`,`prompt`:`P`,`user`:`U`,`imageUrl`:`http://x`}").
Proof.
  assert (Hs : searchRequest (get "/search" [param "q" "foo"]) (js "foo"))
    by search_request.
  split; [exact Hs|].
  destruct (first_result_shaped
              searchEndpoint (get "/search" [param "q" "foo"]) (js "foo")
              (searchEndpoint ++ js "foo")
              (answering (pageOf (Arr [sampleResult])))
              (pageOf (Arr [sampleResult])) sampleResult [])
    as (resp & Hr & Hst & _ & Hb);
    [exact Hs | reflexivity | upstream_gives | reflexivity | reflexivity |].
  exists resp; split; [exact Hr|]; split; [exact Hst|].
  rewrite Hb; reflexivity.
Defined.

(** C1 as stated fails: the array has an element, yet the element has no
    [user], the read of [displayName] throws and the answer is the 500 fault
    response, not a 200. *)
Lemma first_result_without_user :
  searchRequest (get "/search" [param "q" "foo"]) (js "foo")
  /\ dataOf (pageOf (Arr [Obj [(js "title", Str (js "T"));
                               (js "prompt", Str (js "P"));
                               (js "url", Str (js "http://x"))]]))
     = Arr [Obj [(js "title", Str (js "T"));
                 (js "prompt", Str (js "P"));
                 (js "url", Str (js "http://x"))]]
  /\ fst (handler (get "/search" [param "q" "foo"])
                  (answering
                     (pageOf (Arr [Obj [(js "title", Str (js "T"));
                                        (js "prompt", Str (js "P"));
                                        (js "url", Str (js "http://x"))]]))))
     = Normal faultResponse
  /\ status faultResponse = 500%N
  /\ ~ (exists resp,
          fst (handler (get "/search" [param "q" "foo"])
                       (answering
                          (pageOf (Arr [Obj [(js "title", Str (js "T"));
                                             (js "prompt", Str (js "P"));
                                             (js "url", Str (js "http://x"))]]))))
          = Normal resp
          /\ status resp = 200%N).
Proof.
  split; [search_request|].
  split; [reflexivity|].
  split; [reflexivity|].
  split; [reflexivity|].
  intros (resp & Hr & Hst).
  vm_compute in Hr; inversion Hr; subst resp; discriminate Hst.
Qed.

(** C2 at [/search?q=foo] and a reply with an empty result array. *)
Lemma no_results_is_404_witness :
  searchRequest (get "/search" [param "q" "foo"]) (js "foo")
  /\ exists resp,
       fst (handler (get "/search" [param "q" "foo"]) (answering (pageOf (Arr []))))
       = Normal resp
       /\ status resp = 404%N
       /\ body resp = Some (jsq "{`error`:`No results found for \`foo\`.`}").
Proof.
  assert (Hs : searchRequest (get "/search" [param "q" "foo"]) (js "foo"))
    by search_request.
  split; [exact Hs|].
  destruct (no_results_is_404
              (get "/search" [param "q" "foo"]) (js "foo")
              (searchEndpoint ++ js "foo")
              (answering (pageOf (Arr []))) (pageOf (Arr [])))
    as (resp & Hr & Hst & Hb & _);
    [exact Hs | reflexivity | upstream_gives | reflexivity
     | right; reflexivity |].
  exists resp; split; [exact Hr|]; split; [exact Hst|].
  rewrite Hb; reflexivity.
Defined.

(** C2 as stated fails: with no [pageProps] in the reply the read of [data]
    throws and the answer is the 500 fault response, not a 404. *)
Lemma missing_pageProps_is_500 :
  searchRequest (get "/search" [param "q" "foo"]) (js "foo")
  /\ property (Obj []) (js "pageProps") = Undefined
  /\ fst (handler (get "/search" [param "q" "foo"]) (answering (Obj [])))
     = Normal faultResponse
  /\ status faultResponse = 500%N
  /\ ~ (exists resp,
          fst (handler (get "/search" [param "q" "foo"]) (answering (Obj [])))
          = Normal resp
          /\ status resp = 404%N).
Proof.
  split; [search_request|].
  split; [reflexivity|].
  split; [reflexivity|].
  split; [reflexivity|].
  intros (resp & Hr & Hst).
  vm_compute in Hr; inversion Hr; subst resp; discriminate Hst.
Qed.

(** C3 at [/search] with no query string. *)
Lemma missing_query_is_400_witness :
  pathname (url (get "/search" [])) = js "/search"
  /\ searchParams_get (url (get "/search" [])) (js "q") = None
  /\ exists resp,
       handler (get "/search" []) (answering Null)
       = (Normal resp, answering Null)
       /\ status resp = 400%N
       /\ body resp = Some (jsq "{`error`:`Please provide a search query.`}").
Proof.
  split; [reflexivity|]; split; [reflexivity|].
  destruct (missing_query_is_400 (get "/search" []) (answering Null))
    as (resp & Hr & Hst & Hb & _);
    [reflexivity | left; reflexivity |].
  exists resp; repeat split; assumption.
Defined.

(** C4 at [/search?q=foo] and a network that rejects the call. *)
Lemma faults_become_500_witness :
  searchRequest (get "/search" [param "q" "foo"]) (js "foo")
  /\ fst (handler (get "/search" [param "q" "foo"])
                  (worldOf (Rejects (NetworkError (js "connection refused")))))
     = Normal faultResponse
  /\ console (snd (handler (get "/search" [param "q" "foo"])
                           (worldOf (Rejects (NetworkError (js "connection refused"))))))
     = [(js "Error fetching search results:",
         NetworkError (js "connection refused"))].
Proof.
  assert (Hs : searchRequest (get "/search" [param "q" "foo"]) (js "foo"))
    by search_request.
  split; [exact Hs|].
  destruct (faults_become_500
              (get "/search" [param "q" "foo"]) (js "foo")
              (searchEndpoint ++ js "foo")
              (worldOf (Rejects (NetworkError (js "connection refused"))))
              Hs eq_refl)
    as (_ & Hthrow & _).
  exact (Hthrow (NetworkError (js "connection refused")) eq_refl).
Defined.

(** C5 at [/status?q=foo]. *)
Lemma other_paths_not_found_witness :
  pathname (url (get "/status" [param "q" "foo"])) <> js "/search"
  /\ exists resp,
       handler (get "/status" [param "q" "foo"]) (answering Null)
       = (Normal resp, answering Null)
       /\ status resp = 404%N
       /\ body resp = Some (js "Not Found").
Proof.
  assert (Hp : pathname (url (get "/status" [param "q" "foo"])) <> js "/search")
    by (cbv; discriminate).
  split; [exact Hp|].
  destruct (other_paths_not_found
              (get "/status" [param "q" "foo"]) (answering Null) Hp)
    as (resp & Hr & Hst & Hb & _).
  exists resp; repeat split; assumption.
Defined.

(** C6 at [/search?q=a b]: the space goes out as [%20]. *)
Lemma outbound_address_encoded_witness :
  searchRequest (get "/search" [param "q" "a b"]) (js "a b")
  /\ exists encoded,
       encodeURIComponent (js "a b") = Normal encoded
       /\ encoded = js "a%20b"
       /\ outbound (snd (handler (get "/search" [param "q" "a b"])
                                 (answering (pageOf (Arr [])))))
          = [js "https://playground.com/_next/data/DKheFsybTy-HQ-Exsbzy9/search.json?q="
             ++ encoded].
Proof.
  assert (Hs : searchRequest (get "/search" [param "q" "a b"]) (js "a b"))
    by search_request.
  split; [exact Hs|].
  destruct (outbound_address_encoded
              (get "/search" [param "q" "a b"]) (js "a b")
              (answering (pageOf (Arr []))) Hs)
    as (encoded & He & Ho & _).
  exists encoded; split; [exact He|]; split; [|exact Ho].
  vm_compute in He; inversion He; reflexivity.
Defined.

Example no_results_echoes_raw_query :
  answerOf (get "/search" [param "q" "a b"]) (answering (pageOf (Arr [])))
  = Some (404%N, Some (jsq "{`error`:`No results found for \`a b\`.`}")).
Proof. reflexivity. Qed.

Example astral_query_encoded :
  searchUrlFor (js "?q=") [97; 55357; 56832; 233; 8364]%N
  = Normal (js "?q=a%F0%9F%98%80%C3%A9%E2%82%AC").
Proof. reflexivity. Qed.

Example empty_title_is_NA :
  answerOf (get "/search" [param "q" "foo"])
           (answering
              (pageOf (Arr [Obj [(js "title", Str []);
                                 (js "prompt", Str (js "P"));
                                 (js "user", Obj [(js "displayName", Str (js "U"))]);
                                 (js "url", Str (js "http://x"))]])))
  = Some (200%N,
          Some (jsq "{`title`:`N/A`,`prompt`:`P`,`user`:`U`,`imageUrl`:`http://x`}")).
Proof. reflexivity. Qed.

Example malformed_body_is_500 :
  answerOf (get "/search" [param "q" "foo"])
           (worldOf (Resolves {| json_result := Throw SyntaxError |}))
  = Some (500%N,
          Some (jsq "{`error`:`Sorry, an error occurred while fetching the search results.`}")).
Proof. reflexivity. Qed.

Example quotes_in_query_escaped :
  answerOf (get "/search" [(js "q", jsq "say `hi`")]) (answering (pageOf (Arr [])))
  = Some (404%N,
          Some (jsq "{`error`:`No results found for \`say \`hi\`\`.`}")).
Proof. reflexivity. Qed.

(** C7 at [/search?q=foo] and a reply with one complete result. *)
Lemma search_answers_one_variant_witness :
  pathname (url (get "/search" [param "q" "foo"])) = js "/search"
  /\ isWellFormed (queryOf (get "/search" [param "q" "foo"])) = true
  /\ exists resp v,
       fst (handler (get "/search" [param "q" "foo"])
                    (answering (pageOf (Arr [sampleResult]))))
       = Normal resp
       /\ hasVariant (js "foo") v resp.
Proof.
  split; [reflexivity|]; split; [reflexivity|].
  destruct (search_answers_one_variant
              (get "/search" [param "q" "foo"])
              (answering (pageOf (Arr [sampleResult]))) eq_refl eq_refl)
    as (resp & v & Hr & Hv & _).
  exists resp, v; split; assumption.
Defined.

(** C7 as stated fails: the answer to a request for another path is the text
    [Not Found], which is none of the three JSON shapes. *)
Lemma not_found_is_no_variant :
  fst (handler (get "/" []) (answering Null)) = Normal notFoundResponse
  /\ body notFoundResponse = Some (js "Not Found")
  /\ forall q v, ~ hasVariant q v notFoundResponse.
Proof.
  split; [reflexivity|]; split; [reflexivity|].
  intros q [| |]; simpl.
  - intros [H _]; discriminate H.
  - intros [_ H]; rewrite errorBody_text in H; inversion H.
  - intros [[H|H] _]; discriminate H.
Qed.

(** C8 on two worlds with different histories and the same network. *)
Lemma handler_stateless_witness :
  fst (handler (get "/search" [param "q" "foo"])
               (answering (pageOf (Arr [sampleResult]))))
  = fst (handler (get "/search" [param "q" "foo"])
                 (snd (handler (get "/search" [param "q" "bar"])
                               (answering (pageOf (Arr [sampleResult])))))).
Proof.
  apply (proj1 (handler_stateless
                  (get "/search" [param "q" "foo"]) (get "/" [])
                  (answering (pageOf (Arr [sampleResult])))
                  (snd (handler (get "/search" [param "q" "bar"])
                                (answering (pageOf (Arr [sampleResult]))))))).
  intros u _; reflexivity.
Defined.

(** C9 at [/search] with no query string. *)
Lemma content_type_only_on_success_witness :
  fst (handler (get "/search" []) (answering Null)) = Normal missingQueryResponse
  /\ headers missingQueryResponse = []
  /\ contentType missingQueryResponse = js "text/plain;charset=UTF-8".
Proof.
  split; [reflexivity|].
  destruct (content_type_only_on_success
              searchEndpoint (get "/search" []) (answering Null)
              missingQueryResponse eq_refl)
    as [(H & _)|(_ & Hh & Hc & _)]; [discriminate H|].
  split; assumption.
Defined.

(** C10 at [/search?q=foo] and a first result without [prompt]. *)
Lemma absent_fields_left_out_witness :
  searchRequest (get "/search" [param "q" "foo"]) (js "foo")
  /\ property (Obj [(js "title", Str (js "T"));
                    (js "user", Obj [(js "displayName", Str (js "U"))]);
                    (js "url", Str (js "http://x"))]) (js "prompt")
     = Undefined
  /\ exists resp,
       fst (handler (get "/search" [param "q" "foo"])
                    (answering
                       (pageOf
                          (Arr [Obj [(js "title", Str (js "T"));
                                     (js "user", Obj [(js "displayName", Str (js "U"))]);
                                     (js "url", Str (js "http://x"))]]))))
       = Normal resp
       /\ body resp = Some (jsq "{`title`:`T`,`user`:`U`,`imageUrl`:`http://x`}").
Proof.
  assert (Hs : searchRequest (get "/search" [param "q" "foo"]) (js "foo"))
    by search_request.
  split; [exact Hs|]; split; [reflexivity|].
  destruct (absent_fields_left_out
              (get "/search" [param "q" "foo"]) (js "foo")
              (searchEndpoint ++ js "foo")
              (answering
                 (pageOf
                    (Arr [Obj [(js "title", Str (js "T"));
                               (js "user", Obj [(js "displayName", Str (js "U"))]);
                               (js "url", Str (js "http://x"))]])))
              (pageOf
                 (Arr [Obj [(js "title", Str (js "T"));
                            (js "user", Obj [(js "displayName", Str (js "U"))]);
                            (js "url", Str (js "http://x"))]]))
              (Obj [(js "title", Str (js "T"));
                    (js "user", Obj [(js "displayName", Str (js "U"))]);
                    (js "url", Str (js "http://x"))])
              [])
    as (resp & Hr & _ & Hb & _);
    [exact Hs | reflexivity | upstream_gives | reflexivity | reflexivity |].
  exists resp; split; [exact Hr|].
  rewrite (Hb eq_refl); reflexivity.
Defined.

(** * Further properties of the handler *)

Section HandlerMore.

Context {Num_ops : Number}.

Lemma handler_at_returns (endpoint : jsstring) (request : Request) (w : world) :
  isWellFormed (queryOf request) = true ->
  exists resp, fst (handler_at endpoint request w) = Normal resp.
Proof.
  intros Hwf; rewrite handler_at_run.
  destruct (jsstring_eqb (pathname (url request)) (js "/search"));
    [|eexists; reflexivity].
  destruct (queryOf request) as [|c q]; [eexists; reflexivity|].
  cbv zeta.
  destruct (searchUrlFor_total endpoint (c :: q) Hwf) as [u ->].
  destruct (searchOutcome (c :: q) (network w u)); eexists; reflexivity.
Qed.

Lemma shapeResults_Arr (q : jsstring) (responseData first : value)
      (rest : list value) :
  dataOf responseData = Arr (first :: rest) ->
  shapeResults q responseData
  = if isObjectCoercible (property first (js "user"))
    then Normal (successResponse first)
    else Throw TypeError.
Proof.
  intros Hd.
  destruct (isObjectCoercible (property first (js "user"))) eqn:Hu.
  - exact (shapeResults_success q _ _ _ Hd Hu).
  - exact (shapeResults_user_absent q _ _ _ Hd Hu).
Qed.

Lemma logicalOr_defined (a b : value) :
  b <> Undefined -> logicalOr a b <> Undefined.
Proof.
  unfold logicalOr; destruct a; simpl; try congruence.
  - destruct b0; congruence.
  - destruct (Number_isZeroOrNaN n); simpl; congruence.
  - destruct s; congruence.
Qed.

Lemma members_cons_defined (k : jsstring) (x : value) (t : jsstring)
      (rest : list (jsstring * value)) :
  SerializeJSONProperty x = Some t ->
  members ((k, x) :: rest) = (QuoteJSONString k ++ js ":" ++ t) :: members rest.
Proof. intros E; simpl; rewrite E; reflexivity. Qed.

Lemma joinComma_cons (x : jsstring) (l : list jsstring) :
  exists tail, joinComma (x :: l) = x ++ tail.
Proof.
  destruct l as [|y l]; simpl.
  - exists []; rewrite app_nil_r; reflexivity.
  - eexists; reflexivity.
Qed.

Lemma encodeURIComponent_unescaped (q : jsstring) :
  forallb uriUnescaped q = true -> encodeURIComponent q = Normal q.
Proof.
  induction q as [|c q IH]; simpl; [reflexivity|].
  intros [Hc Hq]%andb_true_iff.
  rewrite Hc, (IH Hq); reflexivity.
Qed.

Lemma unescaped_wellFormed (q : jsstring) :
  forallb uriUnescaped q = true -> isWellFormed q = true.
Proof.
  induction q as [|c q IH]; simpl; [reflexivity|].
  intros [Hc Hq]%andb_true_iff.
  destruct (uriUnescaped_not_surrogate c Hc) as [-> ->].
  exact (IH Hq).
Qed.

(** X1: the answer to a search reads the reply through four fields of the
    first result only: two replies whose first results agree on [title],
    [prompt], [url], on whether [user] is present and on [user.displayName]
    get the same response, whatever else the results hold and whatever
    results follow the first. *)
Theorem reply_read_through_four_fields (request : Request) (q u : jsstring)
        (w w' : world) (responseData responseData' first first' : value)
        (rest rest' : list value) :
  searchRequest request q ->
  searchUrlFor searchEndpoint q = Normal u ->
  upstreamGives w u responseData ->
  upstreamGives w' u responseData' ->
  dataOf responseData = Arr (first :: rest) ->
  dataOf responseData' = Arr (first' :: rest') ->
  property first (js "title") = property first' (js "title") ->
  property first (js "prompt") = property first' (js "prompt") ->
  property first (js "url") = property first' (js "url") ->
  isObjectCoercible (property first (js "user"))
  = isObjectCoercible (property first' (js "user")) ->
  property (property first (js "user")) (js "displayName")
  = property (property first' (js "user")) (js "displayName") ->
  fst (handler request w) = fst (handler request w').
Proof.
  intros Hs Hu Hg Hg' Hd Hd' Ht Hp Hl Hc Hn.
  unfold handler.
  rewrite !(handler_at_search _ _ _ _ _ Hs Hu).
  rewrite (searchOutcome_gives q _ _ _ Hg), (searchOutcome_gives q _ _ _ Hg').
  rewrite (shapeResults_Arr q _ _ _ Hd), (shapeResults_Arr q _ _ _ Hd').
  rewrite <- Hc.
  unfold successResponse, shaped; rewrite <- Ht, <- Hp, <- Hl, <- Hn.
  destruct (isObjectCoercible (property first (js "user"))); reflexivity.
Qed.

(** X2: the compiled copy answers as [index.ts] does whenever the network
    answers its address, the one with the other build identifier, as it
    answers the address of [index.ts]; and its one outbound call goes to
    that other address. *)
Theorem compiled_copy_agrees (request : Request) (q encoded : jsstring)
        (w w' : world) :
  searchRequest request q ->
  encodeURIComponent q = Normal encoded ->
  network w' (searchEndpoint_compiled ++ encoded)
  = network w (searchEndpoint ++ encoded) ->
  fst (handler_compiled request w') = fst (handler request w)
  /\ outbound (snd (handler_compiled request w'))
     = outbound w'
       ++ [js "https://playground.com/_next/data/ba0kOy0FZsenBfbBIZHrR/search.json?q="
           ++ encoded].
Proof.
  intros Hs He Hn.
  assert (Hu : forall ep, searchUrlFor ep q = Normal (ep ++ encoded))
    by (intros ep; unfold searchUrlFor; rewrite He; reflexivity).
  unfold handler, handler_compiled.
  rewrite (handler_at_search _ _ _ _ w Hs (Hu searchEndpoint)).
  rewrite (handler_at_search _ _ _ _ w' Hs (Hu searchEndpoint_compiled)).
  rewrite Hn.
  destruct (searchOutcome q (network w (searchEndpoint ++ encoded)));
    split; reflexivity.
Qed.

(** X3: the test [data && data.length > 0] does not ask for an array: a
    reply whose [data] is a non-empty string passes it, its first character
    is taken for the first result, the read of [user.displayName] throws
    and the answer is the 500 fault response. *)
Theorem string_data_is_500 (request : Request) (q u : jsstring) (w : world)
        (responseData : value) (c : N) (s : jsstring) :
  searchRequest request q ->
  searchUrlFor searchEndpoint q = Normal u ->
  upstreamGives w u responseData ->
  dataOf responseData = Str (c :: s) ->
  fst (handler request w) = Normal faultResponse
  /\ console (snd (handler request w))
     = console w ++ [(js "Error fetching search results:", TypeError)].
Proof.
  intros Hs Hu Hg Hd.
  assert (Hc : isObjectCoercible (dataOf responseData) = true)
    by (rewrite Hd; reflexivity).
  apply dataOf_present in Hc as [Hpp _].
  assert (E : shapeResults q responseData = Throw TypeError).
  { rewrite shapeResults_navigate by exact Hpp.
    rewrite Hd.
    change (ToBoolean (Str (c :: s))) with true; cbv iota.
    rewrite Get_present by reflexivity.
    change (property (Str (c :: s)) (js "length"))
      with (Num (Number_of_nat (S (List.length s)))).
    unfold cbind at 2; rewrite greaterThanZero_length.
    unfold cbind at 1; cbv iota.
    rewrite Get_present by reflexivity.
    change (property (Str (c :: s)) (js "0")) with (Str [c]).
    unfold cbind at 1; rewrite shape_first; reflexivity. }
  unfold handler.
  rewrite (handler_at_search _ _ _ _ w Hs Hu), (searchOutcome_gives q _ _ _ Hg), E.
  split; reflexivity.
Qed.

(** X4: every 200 response carries a [title]: the body begins with
    [{"title":], for the title falls back to ["N/A"] and so is never
    [undefined], unlike the other three fields. *)
Theorem title_always_present (request : Request) (w : world) (resp : Response) :
  fst (handler request w) = Normal resp ->
  status resp = 200%N ->
  exists rest, body resp = Some (jsq "{`title`:" ++ rest).
Proof.
  intros Hr Hst.
  destruct (handler_at_responses _ _ _ _ Hr)
    as [[_ ->]|[_ [[_ ->]|[_ [[first ->]|[->| ->]]]]]];
    try discriminate Hst.
  unfold successResponse, shaped; cbn [body].
  unfold JSON_stringify; rewrite SerializeJSONProperty_Obj.
  destruct (SerializeJSONProperty
              (logicalOr (property first (js "title")) (Str (js "N/A"))))
    as [t|] eqn:Et.
  2: { apply SerializeJSONProperty_None in Et.
       apply logicalOr_defined in Et; [contradiction | discriminate]. }
  rewrite (members_cons_defined _ _ _ _ Et).
  destruct (joinComma_cons
              (QuoteJSONString (js "title") ++ js ":" ++ t)
              (members
                 [(js "prompt", property first (js "prompt"));
                  (js "user",
                   property (property first (js "user")) (js "displayName"));
                  (js "imageUrl", property first (js "url"))]))
    as [tail Ht].
  exists (t ++ tail ++ js "}").
  apply f_equal.
  transitivity (js "{" ++ ((QuoteJSONString (js "title") ++ js ":" ++ t) ++ tail)
                ++ js "}").
  - apply f_equal, (f_equal (fun z => z ++ js "}")); exact Ht.
  - rewrite <- !app_assoc; reflexivity.
Qed.

(** X5: a first result whose [user] is present but has no [displayName]
    (an empty object, a string, a number) is still answered with 200, and
    the body is the serialization of the object without a [user] key. *)
Theorem user_without_displayName (request : Request) (q u : jsstring)
        (w : world) (responseData first : value) (rest : list value) :
  searchRequest request q ->
  searchUrlFor searchEndpoint q = Normal u ->
  upstreamGives w u responseData ->
  dataOf responseData = Arr (first :: rest) ->
  isObjectCoercible (property first (js "user")) = true ->
  property (property first (js "user")) (js "displayName") = Undefined ->
  exists resp,
    fst (handler request w) = Normal resp
    /\ status resp = 200%N
    /\ body resp
       = JSON_stringify
           (Obj [(js "title",
                  logicalOr (property first (js "title")) (Str (js "N/A")));
                 (js "prompt", property first (js "prompt"));
                 (js "imageUrl", property first (js "url"))]).
Proof.
  intros Hs Hu Hg Hd Huser Hn.
  exists (successResponse first).
  unfold handler.
  rewrite (handler_at_search _ _ _ _ w Hs Hu), (searchOutcome_gives q _ _ _ Hg).
  rewrite (shapeResults_success q _ _ _ Hd Huser).
  split; [reflexivity|]; split; [reflexivity|].
  unfold successResponse, shaped; cbn [body]; rewrite Hn.
  rewrite JSON_stringify_defined.
  symmetry; rewrite JSON_stringify_defined; reflexivity.
Qed.

(** X6: a query made of unreserved characters only (letters, digits and
    [_ - . ! ~ * ' ( )]) goes out as it is: the outbound address is the
    endpoint followed by the query. *)
Theorem unreserved_query_verbatim (request : Request) (q : jsstring) (w : world) :
  pathname (url request) = js "/search" ->
  searchParams_get (url request) (js "q") = Some q ->
  q <> [] ->
  forallb uriUnescaped q = true ->
  outbound (snd (handler request w)) = outbound w ++ [searchEndpoint ++ q].
Proof.
  intros Hp Hq Hne Hun.
  assert (Hs : searchRequest request q).
  { repeat split; try assumption. now apply unescaped_wellFormed. }
  assert (Hu : searchUrlFor searchEndpoint q = Normal (searchEndpoint ++ q)).
  { unfold searchUrlFor; rewrite (encodeURIComponent_unescaped q Hun).
    reflexivity. }
  unfold handler; rewrite (handler_at_search _ _ _ _ w Hs Hu).
  destruct (searchOutcome q (network w (searchEndpoint ++ q))); reflexivity.
Qed.

End HandlerMore.

(** * Properties of the server *)

Section BackoffFacts.

Lemma backoffAfter_range (i : nat) : (5 <= backoffAfter i <= 1000)%N.
Proof.
  unfold backoffAfter, INITIAL_ACCEPT_BACKOFF_DELAY, MAX_ACCEPT_BACKOFF_DELAY.
  assert (0 < 2 ^ N.of_nat i)%N by (apply N.neq_0_lt_0, N.pow_nonzero; lia).
  lia.
Qed.

Lemma nextAcceptBackoffDelay_first :
  nextAcceptBackoffDelay None = backoffAfter 0.
Proof. reflexivity. Qed.

Lemma nextAcceptBackoffDelay_step (i : nat) :
  nextAcceptBackoffDelay (Some (backoffAfter i)) = backoffAfter (S i).
Proof.
  pose proof (backoffAfter_range i) as Hr.
  unfold nextAcceptBackoffDelay.
  remember (backoffAfter i) as b eqn:E.
  destruct b as [|p]; [lia|].
  unfold backoffAfter in *.
  unfold INITIAL_ACCEPT_BACKOFF_DELAY, MAX_ACCEPT_BACKOFF_DELAY in *.
  rewrite Nat2N.inj_succ, N.pow_succ_r'.
  set (x := (2 ^ N.of_nat i)%N) in *.
  destruct (N.leb_spec 1000 (N.pos p * 2)); lia.
Qed.

Lemma acceptDelays_streak_from (k i : nat) :
  acceptDelays (repeat TransientError k) (Some (backoffAfter i))
  = map backoffAfter (seq (S i) k).
Proof.
  revert i; induction k as [|k IH]; intros i; [reflexivity|].
  cbn [repeat acceptDelays seq map].
  rewrite nextAcceptBackoffDelay_step, IH; reflexivity.
Qed.

Lemma acceptDelays_streak (k : nat) :
  acceptDelays (repeat TransientError k) None = map backoffAfter (seq 0 k).
Proof.
  destruct k as [|k]; [reflexivity|].
  cbn [repeat acceptDelays seq map].
  rewrite nextAcceptBackoffDelay_first, acceptDelays_streak_from; reflexivity.
Qed.

Lemma acceptDelays_app (before after : list acceptOutcome) (d : option N) :
  ~ In OtherError before ->
  acceptDelays (before ++ Connection :: after) d
  = acceptDelays before d ++ acceptDelays after None.
Proof.
  revert d; induction before as [|o before IH]; intros d Hno; [reflexivity|].
  destruct o; cbn [app acceptDelays].
  - apply IH; intros H; apply Hno; right; exact H.
  - rewrite IH; [reflexivity|]. intros H; apply Hno; right; exact H.
  - exfalso; apply Hno; left; reflexivity.
Qed.

Lemma nextAcceptBackoffDelay_range (d : option N) :
  (forall x, d = Some x -> 5 <= x <= 1000)%N ->
  (5 <= nextAcceptBackoffDelay d <= 1000)%N.
Proof.
  intros H; unfold nextAcceptBackoffDelay.
  unfold INITIAL_ACCEPT_BACKOFF_DELAY, MAX_ACCEPT_BACKOFF_DELAY.
  destruct d as [[|p]|].
  - cbn; lia.
  - specialize (H (N.pos p) eq_refl).
    destruct (N.leb_spec 1000 (N.pos p * 2)); lia.
  - cbn; lia.
Qed.

Lemma acceptDelays_range (outcomes : list acceptOutcome) (d : option N) :
  (forall x, d = Some x -> 5 <= x <= 1000)%N ->
  Forall (fun delay => 5 <= delay <= 1000)%N (acceptDelays outcomes d).
Proof.
  revert d; induction outcomes as [|o outcomes IH]; intros d Hd;
    [constructor|].
  destruct o; cbn [acceptDelays].
  - apply IH; discriminate.
  - pose proof (nextAcceptBackoffDelay_range d Hd) as Hn.
    constructor; [exact Hn|].
    apply IH; intros x [= <-]; exact Hn.
  - constructor.
Qed.

(** X7: during a run of [k] failed accepts in a row, from the start of the
    loop, the loop waits 5 ms, then twice as long each time, and never more
    than 1000 ms: the [i]-th wait (from 0) is [min (5 * 2^i) 1000]. *)
Theorem accept_backoff_doubles_to_cap (k : nat) :
  acceptDelays (repeat TransientError k) None
  = map (fun i => N.min (5 * 2 ^ N.of_nat i) 1000) (seq 0 k).
Proof.
  rewrite acceptDelays_streak; reflexivity.
Qed.

(** X8: whatever the accepts end in, every wait of the loop is at least
    5 ms and at most 1000 ms. *)
Theorem accept_backoff_bounded (outcomes : list acceptOutcome) :
  Forall (fun delay => 5 <= delay <= 1000)%N (acceptDelays outcomes None).
Proof.
  apply acceptDelays_range; discriminate.
Qed.

(** X9: an accepted connection starts the backoff over: the failed accepts
    that follow it wait 5 ms, 10 ms, ... again, however long the loop had
    come to wait before. *)
Theorem accept_backoff_reset (before : list acceptOutcome) (k : nat) :
  ~ In OtherError before ->
  acceptDelays (before ++ Connection :: repeat TransientError k) None
  = acceptDelays before None
    ++ map (fun i => N.min (5 * 2 ^ N.of_nat i) 1000) (seq 0 k).
Proof.
  intros Hno.
  rewrite (acceptDelays_app before _ None Hno), acceptDelays_streak.
  reflexivity.
Qed.

End BackoffFacts.

Section ServerFacts.

Context {Num_ops : Number}.

Lemma Set_delete_In (r x : nat) (l : list nat) :
  In r (Set_delete x l) <-> In r l /\ r <> x.
Proof.
  unfold Set_delete; rewrite filter_In, negb_true_iff, Nat.eqb_neq.
  intuition congruence.
Qed.

Lemma Set_delete_absent (x : nat) (l : list nat) :
  existsb (Nat.eqb x) l = false -> Set_delete x l = l.
Proof.
  induction l as [|y l IH]; simpl; [reflexivity|].
  intros [Hy Hl]%orb_false_iff; rewrite Hy; simpl.
  rewrite (IH Hl); reflexivity.
Qed.

Lemma tryClose_spec (rid : nat) (sys : system) :
  tryClose rid sys
  = {| resources := Set_delete rid (resources sys);
       responses := responses sys;
       outside := outside sys |}.
Proof.
  unfold tryClose, closeResource.
  destruct (existsb (Nat.eqb rid) (resources sys)) eqn:E; [reflexivity|].
  rewrite (Set_delete_absent _ _ E); destruct sys; reflexivity.
Qed.

Lemma fold_tryClose (l : list nat) (sys : system) :
  (forall r, In r (resources (fold_left (fun sys c => tryClose c sys) l sys))
             <-> In r (resources sys) /\ ~ In r l)
  /\ responses (fold_left (fun sys c => tryClose c sys) l sys) = responses sys
  /\ outside (fold_left (fun sys c => tryClose c sys) l sys) = outside sys.
Proof.
  revert sys; induction l as [|c l IH]; intros sys; simpl.
  - repeat split; tauto.
  - destruct (IH (tryClose c sys)) as (Hr & Hp & Ho).
    split; [|split].
    + intros r; rewrite Hr, tryClose_spec; simpl.
      rewrite Set_delete_In; intuition congruence.
    + rewrite Hp, tryClose_spec; reflexivity.
    + rewrite Ho, tryClose_spec; reflexivity.
Qed.

Lemma fold_closeHttpConn (l : list nat) (s : Server) (sys : system) :
  exists conns,
    fold_left (fun st c => closeHttpConn c st) l (s, sys)
    = (setHttpConnections s conns,
       fold_left (fun sys c => tryClose c sys) l sys).
Proof.
  revert s sys; induction l as [|c l IH]; intros s sys; simpl.
  - exists (server_httpConnections s); destruct s; reflexivity.
  - unfold closeHttpConn at 2; simpl.
    destruct (IH (untrackHttpConnection c s) (tryClose c sys)) as [conns ->].
    exists conns; reflexivity.
Qed.

Lemma close_open (s : Server) (sys : system) :
  server_closed s = false ->
  close (s, sys)
  = (Returns tt,
     ({| server_addr := server_addr s;
         server_handler := server_handler s;
         server_closed := true;
         server_listeners := [];
         server_httpConnections := [] |},
      fold_left (fun sys c => tryClose c sys) (server_httpConnections s)
                (fold_left (fun sys c => tryClose c sys) (server_listeners s) sys))).
Proof.
  intros Hopen; unfold close; rewrite Hopen.
  cbn [setClosed setListeners server_listeners server_httpConnections].
  match goal with
  | |- context [fold_left ?f ?l (?s0, ?sys1)] =>
      destruct (fold_closeHttpConn l s0 sys1) as [conns E]
  end.
  cbv zeta; rewrite E; reflexivity.
Qed.

(** X10: closing an open server marks it closed, forgets every listener and
    connection it tracked and closes them: afterwards the resources still
    open are the ones that were open and that the server did not track.
    Responses already handed over and the world of the handler are left as
    they were. *)
Theorem close_releases_everything (s : Server) (sys : system) :
  server_closed s = false ->
  exists sys',
    close (s, sys)
    = (Returns tt,
       ({| server_addr := server_addr s;
           server_handler := server_handler s;
           server_closed := true;
           server_listeners := [];
           server_httpConnections := [] |}, sys'))
    /\ (forall r, In r (resources sys')
                  <-> In r (resources sys)
                      /\ ~ In r (server_listeners s)
                      /\ ~ In r (server_httpConnections s))
    /\ responses sys' = responses sys
    /\ outside sys' = outside sys.
Proof.
  intros Hopen; eexists; split; [exact (close_open s sys Hopen)|].
  set (sys1 := fold_left (fun sys c => tryClose c sys) (server_listeners s) sys).
  destruct (fold_tryClose (server_listeners s) sys) as (Hr1 & Hp1 & Ho1).
  destruct (fold_tryClose (server_httpConnections s) sys1) as (Hr2 & Hp2 & Ho2).
  fold sys1 in Hr1, Hp1, Ho1.
  rewrite Hp2, Ho2, Hp1, Ho1.
  split; [|split; reflexivity].
  intros r; rewrite Hr2, Hr1; tauto.
Qed.

(** X11: a server is closed once: after [close], another [close] throws
    [Http "Server closed"] and so does [serve], and neither changes
    anything; [serve] then leaves the listener it was given as it is,
    neither tracked nor closed. *)
Theorem closed_server_refuses (s : Server) (sys : system)
        (accept : nat -> Server * system -> outcome unit * (Server * system))
        (listener : nat) :
  server_closed s = false ->
  close (snd (close (s, sys)))
  = (Throws (Http (js "Server closed")), snd (close (s, sys)))
  /\ serve accept listener (snd (close (s, sys)))
     = (Throws (Http (js "Server closed")), snd (close (s, sys))).
Proof.
  intros Hopen.
  rewrite (close_open s sys Hopen); split; reflexivity.
Qed.

(** X12: [serve] on an open server always lets go of its listener: whether
    the accept loop returns or throws, and whatever it did to the server
    meanwhile, [serve] ends with what the loop ended with, and the listener
    is then neither tracked nor open. *)
Theorem serve_always_closes_listener
        (accept : nat -> Server * system -> outcome unit * (Server * system))
        (listener : nat) (st : Server * system) :
  server_closed (fst st) = false ->
  fst (serve accept listener st)
  = fst (accept listener (trackListener listener (fst st), snd st))
  /\ ~ In listener (server_listeners (fst (snd (serve accept listener st))))
  /\ ~ In listener (resources (snd (snd (serve accept listener st)))).
Proof.
  intros Hopen; unfold serve; rewrite Hopen.
  destruct (accept listener (trackListener listener (fst st), snd st))
    as [result [s' sys']].
  cbn [fst snd]; split; [reflexivity|]; split.
  - unfold untrackListener; cbn [setListeners server_listeners].
    rewrite Set_delete_In; tauto.
  - rewrite tryClose_spec; cbn [resources].
    rewrite Set_delete_In; tauto.
Qed.

(** X13: [#respond] never throws, whatever the handler is and does.  When
    the handler throws, or the response cannot be handed over, the one
    connection is untracked and closed, no response is recorded and the
    server stays as open as it was. *)
Theorem respond_isolates_failures (requestEvent : RequestEvent) (httpConn : nat)
        (s : Server) (sys : system) :
  exists st',
    respond requestEvent httpConn (s, sys) = (Returns tt, st')
    /\ server_closed (fst st') = server_closed s
    /\ server_listeners (fst st') = server_listeners s
    /\ ((exists e, fst (server_handler s (event_request requestEvent) (outside sys))
                   = Throw e)
        \/ event_deliverable requestEvent = false ->
        ~ In httpConn (server_httpConnections (fst st'))
        /\ ~ In httpConn (resources (snd st'))
        /\ responses (snd st') = responses sys).
Proof.
  unfold respond.
  destruct (server_handler s (event_request requestEvent) (outside sys))
    as [[response|e] w] eqn:Eh; cbn [fst].
  - destruct (event_deliverable requestEvent) eqn:Ed.
    + eexists; split; [reflexivity|]; cbn [fst snd].
      split; [reflexivity|]; split; [reflexivity|].
      intros [[e He]|Hd]; discriminate.
    + eexists; split; [reflexivity|].
      unfold closeHttpConn, untrackHttpConnection; cbn [fst snd].
      rewrite tryClose_spec.
      cbn [setHttpConnections setOutside server_closed server_listeners
           server_httpConnections resources responses].
      split; [reflexivity|]; split; [reflexivity|].
      intros _; rewrite !Set_delete_In; intuition congruence.
  - eexists; split; [reflexivity|].
    unfold closeHttpConn, untrackHttpConnection; cbn [fst snd].
    rewrite tryClose_spec.
      cbn [setHttpConnections setOutside server_closed server_listeners
           server_httpConnections resources responses].
    split; [reflexivity|]; split; [reflexivity|].
    intros _; rewrite !Set_delete_In; intuition congruence.
Qed.

(** X14: with the handler of [index.ts], every request whose response can be
    handed over gets exactly the response of the handler, on its own
    connection, after the ones handed over before; the server, its
    connections and the open resources stay as they were, and the world
    changes as the handler changes it. *)
Theorem respond_sends_handler_response (requestEvent : RequestEvent)
        (httpConn : nat) (s : Server) (sys : system) :
  server_handler s = handler ->
  isWellFormed (queryOf (event_request requestEvent)) = true ->
  event_deliverable requestEvent = true ->
  exists resp,
    fst (handler (event_request requestEvent) (outside sys)) = Normal resp
    /\ respond requestEvent httpConn (s, sys)
       = (Returns tt,
          (s, {| resources := resources sys;
                 responses := responses sys ++ [(httpConn, resp)];
                 outside := snd (handler (event_request requestEvent)
                                         (outside sys)) |})).
Proof.
  intros Hh Hwf Hd.
  destruct (handler_at_returns searchEndpoint (event_request requestEvent)
                               (outside sys) Hwf) as [resp Hr].
  exists resp; split; [exact Hr|].
  unfold respond; rewrite Hh, Hd.
  fold handler in Hr.
  destruct (handler (event_request requestEvent) (outside sys)) as [c w].
  cbn [fst snd] in Hr |- *; rewrite Hr; reflexivity.
Qed.

End ServerFacts.

(** ** The further properties on examples *)

(** X1 on a reply with one result and a reply whose first result has one
    more field and is followed by another result. *)
Lemma reply_read_through_four_fields_witness :
  fst (handler (get "/search" [param "q" "foo"])
               (answering (pageOf (Arr [sampleResult]))))
  = fst (handler (get "/search" [param "q" "foo"])
                 (answering (pageOf (Arr [richResult; Null])))).
Proof.
  apply (reply_read_through_four_fields
           (get "/search" [param "q" "foo"]) (js "foo")
           (searchEndpoint ++ js "foo")
           (answering (pageOf (Arr [sampleResult])))
           (answering (pageOf (Arr [richResult; Null])))
           (pageOf (Arr [sampleResult]))
           (pageOf (Arr [richResult; Null]))
           sampleResult richResult [] [Null]);
    first [search_request | upstream_gives | reflexivity].
Defined.

(** X2 at [/search?q=foo] on a network that answers every address alike. *)
Lemma compiled_copy_agrees_witness :
  searchRequest (get "/search" [param "q" "foo"]) (js "foo")
  /\ fst (handler_compiled (get "/search" [param "q" "foo"])
                           (answering (pageOf (Arr [sampleResult]))))
     = fst (handler (get "/search" [param "q" "foo"])
                    (answering (pageOf (Arr [sampleResult]))))
  /\ outbound (snd (handler_compiled (get "/search" [param "q" "foo"])
                                     (answering (pageOf (Arr [sampleResult])))))
     = [js "https://playground.com/_next/data/ba0kOy0FZsenBfbBIZHrR/search.json?q=foo"].
Proof.
  assert (Hs : searchRequest (get "/search" [param "q" "foo"]) (js "foo"))
    by search_request.
  split; [exact Hs|].
  exact (compiled_copy_agrees
           (get "/search" [param "q" "foo"]) (js "foo") (js "foo")
           (answering (pageOf (Arr [sampleResult])))
           (answering (pageOf (Arr [sampleResult])))
           Hs eq_refl eq_refl).
Defined.

(** X3 at a reply whose [data] is the string ["abc"]. *)
Lemma string_data_is_500_witness :
  searchRequest (get "/search" [param "q" "foo"]) (js "foo")
  /\ dataOf (pageOf (Str (js "abc"))) = Str (js "abc")
  /\ fst (handler (get "/search" [param "q" "foo"])
                  (answering (pageOf (Str (js "abc")))))
     = Normal faultResponse.
Proof.
  assert (Hs : searchRequest (get "/search" [param "q" "foo"]) (js "foo"))
    by search_request.
  split; [exact Hs|]; split; [reflexivity|].
  refine (proj1 (string_data_is_500
                   (get "/search" [param "q" "foo"]) (js "foo")
                   (searchEndpoint ++ js "foo")
                   (answering (pageOf (Str (js "abc"))))
                   (pageOf (Str (js "abc"))) 97%N (js "bc")
                   Hs eq_refl _ eq_refl)).
  upstream_gives.
Defined.

(** X4 at [/search?q=foo] and a reply with one complete result. *)
Lemma title_always_present_witness :
  fst (handler (get "/search" [param "q" "foo"])
               (answering (pageOf (Arr [sampleResult]))))
  = Normal (successResponse sampleResult)
  /\ exists rest,
       body (successResponse sampleResult) = Some (jsq "{`title`:" ++ rest).
Proof.
  split; [reflexivity|].
  exact (title_always_present
           (get "/search" [param "q" "foo"])
           (answering (pageOf (Arr [sampleResult])))
           (successResponse sampleResult) eq_refl eq_refl).
Defined.

(** X5 at a first result whose [user] is a string. *)
Lemma user_without_displayName_witness :
  searchRequest (get "/search" [param "q" "foo"]) (js "foo")
  /\ exists resp,
       fst (handler (get "/search" [param "q" "foo"])
                    (answering
                       (pageOf (Arr [Obj [(js "title", Str (js "T"));
                                          (js "user", Str (js "bob"))]]))))
       = Normal resp
       /\ status resp = 200%N
       /\ body resp = Some (jsq "{`title`:`T`}").
Proof.
  assert (Hs : searchRequest (get "/search" [param "q" "foo"]) (js "foo"))
    by search_request.
  split; [exact Hs|].
  destruct (user_without_displayName
              (get "/search" [param "q" "foo"]) (js "foo")
              (searchEndpoint ++ js "foo")
              (answering
                 (pageOf (Arr [Obj [(js "title", Str (js "T"));
                                    (js "user", Str (js "bob"))]])))
              (pageOf (Arr [Obj [(js "title", Str (js "T"));
                                 (js "user", Str (js "bob"))]]))
              (Obj [(js "title", Str (js "T")); (js "user", Str (js "bob"))])
              [])
    as (resp & Hr & Hst & Hb);
    [exact Hs | reflexivity | upstream_gives | reflexivity | reflexivity
     | reflexivity |].
  exists resp; split; [exact Hr|]; split; [exact Hst|].
  rewrite Hb; reflexivity.
Defined.

(** X6 at [/search?q=cats]. *)
Lemma unreserved_query_verbatim_witness :
  forallb uriUnescaped (js "cats") = true
  /\ outbound (snd (handler (get "/search" [param "q" "cats"])
                            (answering (pageOf (Arr [])))))
     = [js "https://playground.com/_next/data/DKheFsybTy-HQ-Exsbzy9/search.json?q=cats"].
Proof.
  split; [reflexivity|].
  refine (unreserved_query_verbatim
            (get "/search" [param "q" "cats"]) (js "cats")
            (answering (pageOf (Arr []))) eq_refl eq_refl _ eq_refl).
  cbv; discriminate.
Defined.

(** X9 after two failed accepts and a connection. *)
Lemma accept_backoff_reset_witness :
  acceptDelays
    [TransientError; TransientError; Connection;
     TransientError; TransientError; TransientError] None
  = [5; 10; 5; 10; 20]%N.
Proof.
  refine (accept_backoff_reset [TransientError; TransientError] 3 _).
  simpl; intros [H|[H|[]]]; discriminate H.
Defined.

Example accept_backoff_reaches_cap :
  acceptDelays (repeat TransientError 10) None
  = [5; 10; 20; 40; 80; 160; 320; 640; 1000; 1000]%N.
Proof. reflexivity. Qed.

(** X10 on the sample server: only the resource it did not track stays
    open. *)
Lemma close_releases_everything_witness :
  server_closed sampleServer = false
  /\ exists sys',
       snd (snd (close (sampleServer, sampleSystem))) = sys'
       /\ In 11 (resources sys')
       /\ ~ In 3 (resources sys')
       /\ ~ In 7 (resources sys').
Proof.
  split; [reflexivity|].
  destruct (close_releases_everything sampleServer sampleSystem eq_refl)
    as (sys' & E & Hr & _).
  exists sys'; split; [rewrite E; reflexivity|].
  split; [|split].
  - apply Hr; simpl; intuition discriminate.
  - intros H; apply Hr in H; simpl in H; tauto.
  - intros H; apply Hr in H; simpl in H; tauto.
Defined.

(** X11 on the sample server. *)
Lemma closed_server_refuses_witness :
  server_closed sampleServer = false
  /\ fst (close (snd (close (sampleServer, sampleSystem))))
     = Throws (Http (js "Server closed"))
  /\ fst (serve failingAccept 5 (snd (close (sampleServer, sampleSystem))))
     = Throws (Http (js "Server closed")).
Proof.
  split; [reflexivity|].
  destruct (closed_server_refuses
              sampleServer sampleSystem failingAccept 5 eq_refl) as [E1 E2].
  rewrite E1, E2; split; reflexivity.
Defined.

(** X12 on the sample server and an accept loop that throws. *)
Lemma serve_always_closes_listener_witness :
  server_closed (fst (sampleServer, sampleSystem)) = false
  /\ fst (serve failingAccept 11 (sampleServer, sampleSystem))
     = Throws (Raised (js "PermissionDenied"))
  /\ ~ In 11 (resources
                (snd (snd (serve failingAccept 11 (sampleServer, sampleSystem))))).
Proof.
  split; [reflexivity|].
  destruct (serve_always_closes_listener
              failingAccept 11 (sampleServer, sampleSystem) eq_refl)
    as (E & _ & H).
  split; [exact E | exact H].
Defined.

(** X13 on the sample server, a request for [/search?q=foo] and a response
    that cannot be handed over. *)
Lemma respond_isolates_failures_witness :
  exists st',
    respond {| event_request := get "/search" [param "q" "foo"];
               event_deliverable := false |} 7 (sampleServer, sampleSystem)
    = (Returns tt, st')
    /\ ~ In 7 (server_httpConnections (fst st'))
    /\ ~ In 7 (resources (snd st')).
Proof.
  destruct (respond_isolates_failures
              {| event_request := get "/search" [param "q" "foo"];
                 event_deliverable := false |} 7 sampleServer sampleSystem)
    as (st' & E & _ & _ & H).
  exists st'; split; [exact E|].
  destruct (H (or_intror eq_refl)) as (H1 & H2 & _).
  split; assumption.
Defined.

(** X14 on the sample server and a request for [/search?q=foo]. *)
Lemma respond_sends_handler_response_witness :
  server_handler sampleServer = handler
  /\ exists resp,
       responses
         (snd (snd (respond {| event_request := get "/search" [param "q" "foo"];
                               event_deliverable := true |} 7
                            (sampleServer, sampleSystem))))
       = [(7, resp)]
       /\ status resp = 200%N.
Proof.
  split; [reflexivity|].
  destruct (respond_sends_handler_response
              {| event_request := get "/search" [param "q" "foo"];
                 event_deliverable := true |} 7 sampleServer sampleSystem
              eq_refl eq_refl eq_refl)
    as (resp & Hr & E).
  exists resp; rewrite E; split; [reflexivity|].
  vm_compute in Hr; inversion Hr; reflexivity.
Defined.
